(** * Unifront: form normalisation, edit/delete flows and filter views

    A shallow embedding of the React components of the administrative
    front end (Profesores, Cursos, Inscripciones).  Component state is an
    explicit record, every handler is a function on that record, the
    remote API is an oracle whose answer is an argument of the handler
    and whose requests are appended to a log.

    JavaScript strings are modelled by [string]: one [ascii] per UTF-16
    code unit, which covers the code units 0..255 (Latin-1).  JavaScript
    numbers are modelled by [Z] together with [JNaN]; the handlers below
    only compute on integers. *)

From Stdlib Require Import ZArith NArith String Ascii List Bool Lia.
From stdpp Require Import base option list gmap strings pretty.

Local Open Scope string_scope.
Local Open Scope Z_scope.

(** ** JavaScript values and the built-ins the components call *)

Module JS.

Inductive jsval : Type :=
| JUndefined
| JNull
| JNaN
| JNum (z : Z)
| JStr (s : string).

#[global] Instance jsval_eq_dec : EqDecision jsval.
Proof. solve_decision. Defined.

(** ToBoolean. *)
Definition truthy (v : jsval) : bool :=
  match v with
  | JUndefined | JNull | JNaN => false
  | JNum z => negb (z =? 0)
  | JStr s => negb (String.eqb s "")
  end.

(** [a || b]. *)
Definition or (a b : jsval) : jsval := if truthy a then a else b.

(** [Math.min(a, b)] and [Math.max(a, b)] on number arguments; a [NaN]
    argument makes the result [NaN]. *)
Definition Math_min (a b : jsval) : jsval :=
  match a, b with
  | JNum x, JNum y => JNum (Z.min x y)
  | _, _ => JNaN
  end.

Definition Math_max (a b : jsval) : jsval :=
  match a, b with
  | JNum x, JNum y => JNum (Z.max x y)
  | _, _ => JNaN
  end.

(** Code-unit classes. *)
Definition code (c : ascii) : N := N_of_ascii c.

Definition in_range (lo hi c : ascii) : bool :=
  ((code lo <=? code c) && (code c <=? code hi))%N.

Definition is_digit (c : ascii) : bool := in_range "0" "9" c.
Definition is_lower (c : ascii) : bool := in_range "a" "z" c.
Definition is_upper (c : ascii) : bool := in_range "A" "Z" c.
Definition is_letter (c : ascii) : bool := is_lower c || is_upper c.

(** The class [\s] restricted to the code units 0..255: TAB, LF, VT, FF,
    CR, SPACE and NO-BREAK SPACE. *)
Definition is_space (c : ascii) : bool :=
  ((9 <=? code c) && (code c <=? 13) || (code c =? 32) || (code c =? 160))%N.

(** [String.prototype.toLowerCase] on the code units 0..255: the upper
    case letters are A-Z and U+00C0..U+00DE without U+00D7, each 32 below
    its lower case form. *)
Definition lower_unit (c : ascii) : ascii :=
  if (is_upper c
      || ((192 <=? code c) && (code c <=? 222) && negb (code c =? 215)))%N
  then ascii_of_N (code c + 32) else c.

Fixpoint toLowerCase (s : string) : string :=
  match s with
  | EmptyString => EmptyString
  | String c r => String (lower_unit c) (toLowerCase r)
  end.

(** [s.startsWith(t)], used by [includes]. *)
Fixpoint startsWith (s t : string) : bool :=
  match t, s with
  | EmptyString, _ => true
  | String _ _, EmptyString => false
  | String b t', String a s' => Ascii.eqb a b && startsWith s' t'
  end.

(** [s.includes(t)]: some position of [s] starts an occurrence of [t]. *)
Fixpoint includes (s t : string) : bool :=
  startsWith s t
  || match s with
     | EmptyString => false
     | String _ r => includes r t
     end.

(** [s.substring(0, n)]. *)
Definition substring0 (n : nat) (s : string) : string := substring 0 n s.

(** [s.split(sep)] for a separator of one code unit. *)
Fixpoint split (sep : ascii) (s : string) : list string :=
  match s with
  | EmptyString => [EmptyString]
  | String c r =>
      if Ascii.eqb c sep then EmptyString :: split sep r
      else match split sep r with
           | [] => [String c EmptyString]
           | p :: ps => String c p :: ps
           end
  end.

(** [xs[0]]: [undefined] is [None]. *)
Definition first {A} (xs : list A) : option A := xs !! 0%nat.

(** [parseInt(s)] in radix 10 on a string that starts with its digits:
    the longest prefix of decimal digits is read, an empty prefix gives
    [NaN].  Every caller passes a string of digits only (the result of
    stripping all other characters), so white space, sign and the [0x]
    prefix never occur.  The result is the exact integer; the callers
    immediately take [Math.min(10, _)], under which the rounding of
    JavaScript numbers above 2^53 is not observable. *)
Definition digit_val (c : ascii) : Z := Z.of_N (code c) - 48.

Fixpoint parse_digits (acc : Z) (s : string) : Z :=
  match s with
  | EmptyString => acc
  | String c r => if is_digit c then parse_digits (10 * acc + digit_val c) r else acc
  end.

Definition parseInt (s : string) : jsval :=
  match s with
  | EmptyString => JNaN
  | String c _ => if is_digit c then JNum (parse_digits 0 s) else JNaN
  end.

(** [Number.prototype.toString] on an integer (below 10^21, where
    JavaScript switches to exponent notation). *)
Definition toString (z : Z) : string := pretty z.

(** The string a value takes when it is concatenated into a template
    literal or shown in a text field. *)
Definition display (v : jsval) : string :=
  match v with
  | JUndefined => "undefined"
  | JNull => "null"
  | JNaN => "NaN"
  | JNum z => toString z
  | JStr s => s
  end.

End JS.

(** ** The fragment of regular expressions used by the handlers

    Every pattern in the components is a sequence of character classes,
    each with a repetition range: [c], [c+] or [c{2,}].  Matching is
    greedy with backtracking, as in JavaScript. *)

Module Regex.

Record item : Type := Item {
  cls : ascii → bool;
  lo : nat;
  hi : option nat
}.

Definition one (c : ascii → bool) : item := Item c 1 (Some 1%nat).
Definition plus (c : ascii → bool) : item := Item c 1 None.
Definition at_least (n : nat) (c : ascii → bool) : item := Item c n None.

Fixpoint drop (n : nat) (s : string) : string :=
  match n, s with
  | O, _ => s
  | S _, EmptyString => EmptyString
  | S n', String _ r => drop n' r
  end.

(** Length of the longest prefix of [s] inside the class, at most [cap]. *)
Fixpoint run (c : ascii → bool) (cap : option nat) (s : string) : nat :=
  match s with
  | EmptyString => O
  | String a r =>
      match cap with
      | Some O => O
      | Some (S k) => if c a then S (run c (Some k) r) else O
      | None => if c a then S (run c None r) else O
      end
  end.

(** Try [n], [n-1], ..., [lo] repetitions; the first count after which
    the continuation [k] matches wins. *)
Fixpoint try_down (k : string → option nat) (lo : nat) (s : string) (n : nat)
  : option nat :=
  if (n <? lo)%nat then None
  else match k (drop n s) with
       | Some m => Some (n + m)%nat
       | None => match n with
                 | O => None
                 | S n' => try_down k lo s n'
                 end
       end.

(** Number of code units the pattern consumes at the start of [s]. *)
Fixpoint match_here (re : list item) : string → option nat :=
  match re with
  | [] => fun _ => Some O
  | it :: re' =>
      fun s => try_down (match_here re') (lo it) s (run (cls it) (hi it) s)
  end.

(** [s.replace(/re/g, '')]: scanning from the left, every match is
    deleted and the scan resumes behind it; a position without a
    (non-empty) match keeps its code unit. *)
Fixpoint delete_from (re : list item) (skip : nat) (s : string) : string :=
  match s with
  | EmptyString => EmptyString
  | String c r =>
      match skip with
      | S k => delete_from re k r
      | O =>
          match match_here re s with
          | Some (S k) => delete_from re k r
          | _ => String c (delete_from re O r)
          end
      end
  end.

Definition replace_all_empty (re : list item) (s : string) : string :=
  delete_from re O s.

(** The classes of the patterns in the source. *)
Definition non_digit (c : ascii) : bool := negb (JS.is_digit c).
Definition non_letter_space (c : ascii) : bool :=
  negb (JS.is_letter c || JS.is_space c).
Definition char (x : ascii) (c : ascii) : bool := Ascii.eqb c x.
Definition mail_local (c : ascii) : bool :=
  JS.is_letter c || JS.is_digit c
  || char "." c || char "_" c || char "%" c || char "+" c || char "-" c.
Definition mail_domain (c : ascii) : bool :=
  JS.is_letter c || JS.is_digit c || char "." c || char "-" c.

(** [/[^0-9]/g] *)
Definition re_non_digit : list item := [one non_digit].
(** [/[^a-zA-Z\s]/g] *)
Definition re_non_letter_space : list item := [one non_letter_space].
(** [/[^a-zA-Z0-9._%+-]+@[a-zA-Z0-9.-]+\.[a-zA-Z]{2,}/g] *)
Definition re_mail : list item :=
  [ plus (fun c => negb (mail_local c)); one (char "@"); plus mail_domain;
    one (char "."); at_least 2 JS.is_letter ].

End Regex.

(** ** The remote API as an oracle

    A handler receives the outcome of each request it awaits as an
    argument and records the request in the log of the component. *)

Module Api.

Inductive call : Type :=
| Get (url : string)
| Post (url : string) (body : gmap string JS.jsval)
| Put (url : string) (body : gmap string JS.jsval)
| Delete (url : string).

(** The rejection value of a request: [error.response?.data] and
    [error.message]. *)
Record error : Type := Error {
  response_data : JS.jsval;
  message : string
}.

Inductive outcome (A : Type) : Type :=
| Resolved (data : A)
| Rejected (e : error).

Arguments Resolved {A} data.
Arguments Rejected {A} e.

Definition is_delete (c : call) : bool :=
  match c with Delete _ => true | _ => false end.

Definition is_write (c : call) : bool :=
  match c with Get _ => false | _ => true end.

End Api.

(** ** The state shared by the four sections

    [items] is the list cache, [editing] the id under edit or [null],
    [form] the payload object, [search] the filter fields, [error] the
    notice, [open] and [idEliminar] the delete dialog.  [calls] is the
    log of requests issued so far.  The timer that later clears the
    notice only ever runs [setError], and is left out. *)

Module Component.

Section State.
Context {E S : Type}.

Record State : Type := MkState {
  items : list E;
  editing : JS.jsval;
  form : gmap string JS.jsval;
  search : S;
  error : JS.jsval;
  open : bool;
  idEliminar : JS.jsval;
  calls : list Api.call
}.

Definition setItems (v : list E) (st : State) : State :=
  MkState v (editing st) (form st) (search st) (error st) (open st)
          (idEliminar st) (calls st).
Definition setEditing (v : JS.jsval) (st : State) : State :=
  MkState (items st) v (form st) (search st) (error st) (open st)
          (idEliminar st) (calls st).
Definition setForm (v : gmap string JS.jsval) (st : State) : State :=
  MkState (items st) (editing st) v (search st) (error st) (open st)
          (idEliminar st) (calls st).
Definition setSearch (v : S) (st : State) : State :=
  MkState (items st) (editing st) (form st) v (error st) (open st)
          (idEliminar st) (calls st).
Definition setError (v : JS.jsval) (st : State) : State :=
  MkState (items st) (editing st) (form st) (search st) v (open st)
          (idEliminar st) (calls st).
Definition setOpen (v : bool) (st : State) : State :=
  MkState (items st) (editing st) (form st) (search st) (error st) v
          (idEliminar st) (calls st).
Definition setIdEliminar (v : JS.jsval) (st : State) : State :=
  MkState (items st) (editing st) (form st) (search st) (error st) (open st)
          v (calls st).
(** Issue a request. *)
Definition request (c : Api.call) (st : State) : State :=
  MkState (items st) (editing st) (form st) (search st) (error st) (open st)
          (idEliminar st) (calls st ++ [c]).

End State.

Arguments State : clear implicits.

End Component.

(** ** Profesores *)

Module Profesores.
Import JS Component.

Record Profesor : Type := MkProfesor {
  id : Z;
  dni : string;
  nombre : string;
  apellido : string;
  email : string;
  profesion : string;
  telefono : string
}.

(** The object the API returns for a teacher. *)
Definition to_object (p : Profesor) : gmap string jsval :=
  <["id" := JNum (id p)]>
  (<["dni" := JStr (dni p)]>
  (<["nombre" := JStr (nombre p)]>
  (<["apellido" := JStr (apellido p)]>
  (<["email" := JStr (email p)]>
  (<["profesion" := JStr (profesion p)]>
  (<["telefono" := JStr (telefono p)]> ∅)))))).

Record Search : Type := MkSearch {
  s_dni : string;
  s_nombre : string;
  s_apellido : string;
  s_email : string;
  s_profesion : string;
  s_telefono : string
}.

Definition emptyForm : gmap string jsval :=
  <["dni" := JStr ""]>
  (<["nombre" := JStr ""]>
  (<["apellido" := JStr ""]>
  (<["email" := JStr ""]>
  (<["profesion" := JStr ""]>
  (<["telefono" := JStr ""]> ∅))))).

Definition emptySearch : Search := MkSearch "" "" "" "" "" "".

Abbreviation St := (State Profesor Search).

(** The state of [useState] at mount. *)
Definition initial : St :=
  MkState [] JNull emptyForm emptySearch JNull false JNull [].

Definition loadProfesores (listed : Api.outcome (list Profesor)) (st : St) : St :=
  let st := request (Api.Get "/profesores") st in
  match listed with
  | Api.Resolved data => setItems data st
  | Api.Rejected _ => st
  end.

(** The [switch (name)] of [handleChange] and of [handleSearchChange]
    (the two are the same text): the value [newValue] has at its end. *)
Definition newValue (name value : string) : string :=
  if String.eqb name "dni" then
    substring0 8 (Regex.replace_all_empty Regex.re_non_digit value)
  else if String.eqb name "nombre" || String.eqb name "profesion"
          || String.eqb name "apellido" then
    Regex.replace_all_empty Regex.re_non_letter_space value
  else if String.eqb name "email" then
    substring0 100 (Regex.replace_all_empty Regex.re_mail value)
  else if String.eqb name "telefono" then
    substring0 20 (Regex.replace_all_empty Regex.re_non_digit value)
  else value.

Definition handleChange (name value : string) (st : St) : St :=
  setForm (<[name := JStr (newValue name value)]> (form st)) st.

Definition e_acute : ascii := ascii_of_N 233.

Definition handleSubmit (saved : Api.outcome unit)
    (listed : Api.outcome (list Profesor)) (st : St) : St :=
  let write :=
    if truthy (editing st)
    then Api.Put ("/profesores/" ++ display (editing st)) (form st)
    else Api.Post "/profesores" (form st) in
  let st := request write st in
  match saved with
  | Api.Resolved _ =>
      setError JNull (setEditing JNull (setForm emptyForm (loadProfesores listed st)))
  | Api.Rejected _ =>
      setError
        (JStr "Error al guardar profesor. Verifica que los datos sean correctos.") st
  end.

Definition handleEdit (profesor : Profesor) (st : St) : St :=
  setForm (to_object profesor) (setEditing (JNum (id profesor)) st).

Definition handleDelete (i : Z) (st : St) : St :=
  setOpen true (setIdEliminar (JNum i) st).

Definition eliminarProfesor (deleted : Api.outcome unit)
    (listed : Api.outcome (list Profesor)) (st : St) : St :=
  let st := request (Api.Delete ("/profesores/" ++ display (idEliminar st))) st in
  match deleted with
  | Api.Resolved _ =>
      setError (JStr ("Profesor eliminado con " ++ String e_acute "xito"))
        (setOpen false (loadProfesores listed st))
  | Api.Rejected e =>
      setOpen false
        (setError
           (or (JStr ("No se pudo eliminar el profesor: "
                        ++ display (Api.response_data e)))
               (JStr "Error desconocido")) st)
  end.

(** [{...prev, [name]: v}] on the six fields the filter reads. *)
Definition assign (name v : string) (prev : Search) : Search :=
  if String.eqb name "dni" then
    MkSearch v (s_nombre prev) (s_apellido prev) (s_email prev)
             (s_profesion prev) (s_telefono prev)
  else if String.eqb name "nombre" then
    MkSearch (s_dni prev) v (s_apellido prev) (s_email prev)
             (s_profesion prev) (s_telefono prev)
  else if String.eqb name "apellido" then
    MkSearch (s_dni prev) (s_nombre prev) v (s_email prev)
             (s_profesion prev) (s_telefono prev)
  else if String.eqb name "email" then
    MkSearch (s_dni prev) (s_nombre prev) (s_apellido prev) v
             (s_profesion prev) (s_telefono prev)
  else if String.eqb name "profesion" then
    MkSearch (s_dni prev) (s_nombre prev) (s_apellido prev) (s_email prev)
             v (s_telefono prev)
  else if String.eqb name "telefono" then
    MkSearch (s_dni prev) (s_nombre prev) (s_apellido prev) (s_email prev)
             (s_profesion prev) v
  else prev.

Definition handleSearchChange (name value : string) (st : St) : St :=
  setSearch (assign name (newValue name value) (search st)) st.

(** The predicate of [filteredProfesores]. *)
Definition matches (search : Search) (profesor : Profesor) : bool :=
  includes (toLowerCase (dni profesor)) (toLowerCase (s_dni search))
  && includes (toLowerCase (nombre profesor)) (toLowerCase (s_nombre search))
  && includes (toLowerCase (apellido profesor)) (toLowerCase (s_apellido search))
  && includes (toLowerCase (email profesor)) (toLowerCase (s_email search))
  && includes (toLowerCase (profesion profesor)) (toLowerCase (s_profesion search))
  && includes (toLowerCase (telefono profesor)) (toLowerCase (s_telefono search)).

Definition filteredProfesores (search : Search) (profesores : list Profesor)
  : list Profesor :=
  List.filter (matches search) profesores.

(** The gestures of the user.  A button that is not rendered cannot be
    pressed: "Cancelar" of the form needs a truthy [editing], the two
    buttons of the dialog need [open].  A gesture is taken to arrive
    after the requests of the gesture before it were answered: a second
    click on a button whose request is still awaited (the source does
    not disable the button meanwhile) is not among these gestures. *)
Inductive event : Type :=
| Change (name value : string)
| Submit (saved : Api.outcome unit) (listed : Api.outcome (list Profesor))
| Editar (profesor : Profesor)
| Cancelar
| Eliminar (i : Z)
| DialogCancelar
| DialogEliminar (deleted : Api.outcome unit)
                 (listed : Api.outcome (list Profesor)).

Definition step (ev : event) (st : St) : option St :=
  match ev with
  | Change name value => Some (handleChange name value st)
  | Submit saved listed => Some (handleSubmit saved listed st)
  | Editar p => Some (handleEdit p st)
  | Cancelar => if truthy (editing st) then Some (setEditing JNull st) else None
  | Eliminar i => Some (handleDelete i st)
  | DialogCancelar => if open st then Some (setOpen false st) else None
  | DialogEliminar deleted listed =>
      if open st then Some (eliminarProfesor deleted listed st) else None
  end.

Fixpoint run (evs : list event) (st : St) : option St :=
  match evs with
  | [] => Some st
  | ev :: evs' =>
      match step ev st with
      | Some st' => run evs' st'
      | None => None
      end
  end.

End Profesores.

(** ** Cursos *)

Module Cursos.
Import JS Component.

Record Curso : Type := MkCurso {
  id : Z;
  nombre : string;
  descripcion : string;
  profesor : option Profesores.Profesor   (* [null] when unassigned *)
}.

Record Search : Type := MkSearch {
  s_nombre : string;
  s_descripcion : string;
  s_profesorId : string
}.

Definition emptyForm : gmap string jsval :=
  <["nombre" := JStr ""]>
  (<["descripcion" := JStr ""]>
  (<["profesorId" := JStr ""]> ∅)).

Definition emptySearch : Search := MkSearch "" "" "".

Abbreviation St := (State Curso Search).

Definition initial : St :=
  MkState [] JNull emptyForm emptySearch JNull false JNull [].

(** [handleChange]: the text fields deliver strings, the selector of the
    teacher delivers the id of the chosen teacher.  Calling a string
    method on another value raises a TypeError ([None]). *)
Definition handleChange (name : string) (value : jsval) (st : St) : option St :=
  let store newValue := Some (setForm (<[name := newValue]> (form st)) st) in
  if String.eqb name "nombre" then
    match value with
    | JStr v =>
        let newValue := Regex.replace_all_empty Regex.re_non_letter_space v in
        let newValue := substring0 50 v in
        store (JStr newValue)
    | _ => None
    end
  else if String.eqb name "descripcion" then
    match value with
    | JStr v => store (JStr (substring0 200 v))
    | _ => None
    end
  else store value.

(** [{...prev, [name]: v}] on the three fields the filter reads. *)
Definition assign (name v : string) (prev : Search) : Search :=
  if String.eqb name "nombre" then
    MkSearch v (s_descripcion prev) (s_profesorId prev)
  else if String.eqb name "descripcion" then
    MkSearch (s_nombre prev) v (s_profesorId prev)
  else if String.eqb name "profesorId" then
    MkSearch (s_nombre prev) (s_descripcion prev) v
  else prev.

Definition handleSearchChange (name value : string) (st : St) : St :=
  let newValue :=
    if String.eqb name "nombre" then
      let newValue := Regex.replace_all_empty Regex.re_non_letter_space value in
      substring0 50 newValue
    else if String.eqb name "descripcion" then substring0 200 value
    else value in
  setSearch (assign name newValue (search st)) st.

Definition handleEdit (curso : Curso) (st : St) : St :=
  setForm
    (<["nombre" := JStr (nombre curso)]>
    (<["descripcion" := JStr (descripcion curso)]>
    (<["profesorId" := match profesor curso with
                       | Some p => JNum (Profesores.id p)
                       | None => JStr ""
                       end]> ∅)))
    (setEditing (JNum (id curso)) st).

(** The predicate of [filteredCursos]; [curso.profesor?.id.toString()]
    is [undefined] for a course without teacher, and [undefined] is not
    [===] to any string. *)
Definition matches (search : Search) (curso : Curso) : bool :=
  includes (toLowerCase (nombre curso)) (toLowerCase (s_nombre search))
  && includes (toLowerCase (descripcion curso)) (toLowerCase (s_descripcion search))
  && (String.eqb (s_profesorId search) ""
      || match profesor curso with
         | Some p => String.eqb (toString (Profesores.id p)) (s_profesorId search)
         | None => false
         end).

Definition filteredCursos (search : Search) (cursos : list Curso) : list Curso :=
  List.filter (matches search) cursos.

(** A reload is issued where [loadCursos()] is called; its answer is
    handled after the synchronous rest of the calling handler.  The
    answer is taken to arrive before the next gesture. *)
Definition settleCursos (listed : Api.outcome (list Curso)) (st : St) : St :=
  match listed with
  | Api.Resolved data => setItems data st
  | Api.Rejected _ =>
      setError
        (JStr "Error al cargar cursos. Verifica que los datos sean correctos.") st
  end.

Definition loadCursos (listed : Api.outcome (list Curso)) (st : St) : St :=
  settleCursos listed (request (Api.Get "/cursos") st).

Definition handleSubmit (saved : Api.outcome unit)
    (listed : Api.outcome (list Curso)) (st : St) : St :=
  let write :=
    if truthy (editing st)
    then Api.Put ("/cursos/" ++ display (editing st)) (form st)
    else Api.Post "/cursos" (form st) in
  let st := request write st in
  match saved with
  | Api.Resolved _ =>
      settleCursos listed
        (setError JNull (setEditing JNull (setForm emptyForm
           (request (Api.Get "/cursos") st))))
  | Api.Rejected _ =>
      setError
        (JStr "Error al guardar curso. Verifica que los datos sean correctos.") st
  end.

Definition handleDelete (i : Z) (st : St) : St :=
  setOpen true (setIdEliminar (JNum i) st).

Definition eliminarCurso (deleted : Api.outcome unit)
    (listed : Api.outcome (list Curso)) (st : St) : St :=
  let st := request (Api.Delete ("/cursos/" ++ display (idEliminar st))) st in
  match deleted with
  | Api.Resolved _ =>
      settleCursos listed
        (setError (JStr ("Curso eliminado con " ++ String Profesores.e_acute "xito"))
           (setOpen false (request (Api.Get "/cursos") st)))
  | Api.Rejected e =>
      setOpen false
        (setError
           (JStr ("No se pudo eliminar el curso: "
                    ++ display (or (Api.response_data e) (JStr (Api.message e)))))
           st)
  end.

End Cursos.

(** ** Inscripciones *)

Module Inscripciones.
Import JS Component.

Record Estudiante : Type := MkEstudiante {
  e_id : Z;
  e_dni : string;
  e_nombre : string;
  e_apellido : string;
  e_email : string
}.

(** An enrollment as the API returns it: course and student nested. *)
Record Inscripcion : Type := MkInscripcion {
  id : Z;
  curso : Cursos.Curso;
  estudiante : Estudiante;
  nota : jsval;
  fecha : string
}.

Record Search : Type := MkSearch {
  s_curso : string;
  s_estudiante : string;
  s_nota : jsval
}.

Definition emptyForm : gmap string jsval :=
  <["cursoId" := JStr ""]>
  (<["estudianteId" := JStr ""]>
  (<["nota" := JStr ""]>
  (<["fecha" := JStr ""]> ∅))).

Definition emptySearch : Search := MkSearch "" "" (JStr "").

Abbreviation St := (State Inscripcion Search).

Definition initial : St :=
  MkState [] JNull emptyForm emptySearch (JStr "") false JNull [].

(** The grade rule of [handleChange]:
    [Math.max(0, Math.min(10, parseInt(value.replace(/[^0-9]/g, '')))) || '']. *)
Definition normalizeNota (value : string) : jsval :=
  let newValue := Regex.replace_all_empty Regex.re_non_digit value in
  or (Math_max (JNum 0) (Math_min (JNum 10) (parseInt newValue))) (JStr "").

(** [handleChange]: the grade and date fields deliver strings, the two
    selectors deliver the id of the chosen course or student. *)
Definition handleChange (name : string) (value : jsval) (st : St) : option St :=
  let store newValue := Some (setForm (<[name := newValue]> (form st)) st) in
  if String.eqb name "nota" then
    match value with
    | JStr v => store (normalizeNota v)
    | _ => None
    end
  else store value.

(** [fecha.split('T')[0]] *)
Definition fechaForm (fecha : string) : jsval :=
  match first (split "T" fecha) with
  | Some d => JStr d
  | None => JUndefined
  end.

Definition handleEdit (inscripcion : Inscripcion) (st : St) : St :=
  setForm
    (<["cursoId" := JNum (Cursos.id (curso inscripcion))]>
    (<["estudianteId" := JNum (e_id (estudiante inscripcion))]>
    (<["nota" := nota inscripcion]>
    (<["fecha" := fechaForm (fecha inscripcion)]> ∅))))
    (setEditing (JNum (id inscripcion)) st).

Definition o_acute : ascii := ascii_of_N 243.

(** The answer of a reload, handled after the synchronous rest of the
    calling handler (see [Cursos.settleCursos]). *)
Definition settleInscripciones (listed : Api.outcome (list Inscripcion)) (st : St)
  : St :=
  match listed with
  | Api.Resolved data => setItems data st
  | Api.Rejected e =>
      setError (JStr ("Error al cargar inscripciones: " ++ Api.message e)) st
  end.

Definition loadInscripciones (listed : Api.outcome (list Inscripcion)) (st : St)
  : St :=
  settleInscripciones listed (request (Api.Get "/cursos-estudiantes") st).

Definition handleSubmit (saved : Api.outcome unit)
    (listed : Api.outcome (list Inscripcion)) (st : St) : St :=
  let write :=
    if truthy (editing st)
    then Api.Put ("/cursos-estudiantes/" ++ display (editing st)) (form st)
    else Api.Post "/cursos-estudiantes" (form st) in
  let st := request write st in
  match saved with
  | Api.Resolved _ =>
      settleInscripciones listed
        (setError (JStr "") (setEditing JNull (setForm emptyForm
           (request (Api.Get "/cursos-estudiantes") st))))
  | Api.Rejected e =>
      setError
        (JStr ("Error al guardar inscripci" ++ String o_acute "n: " ++ Api.message e))
        st
  end.

Definition handleDelete (i : Z) (st : St) : St :=
  setOpen true (setIdEliminar (JNum i) st).

Definition eliminarInscripcion (deleted : Api.outcome unit)
    (listed : Api.outcome (list Inscripcion)) (st : St) : St :=
  let st :=
    request (Api.Delete ("/cursos-estudiantes/" ++ display (idEliminar st))) st in
  match deleted with
  | Api.Resolved _ =>
      settleInscripciones listed
        (setError
           (JStr ("Inscripci" ++ String o_acute "n eliminada con "
                    ++ String Profesores.e_acute "xito"))
           (setOpen false (request (Api.Get "/cursos-estudiantes") st)))
  | Api.Rejected e =>
      setOpen false
        (setError
           (JStr ("No se pudo eliminar la inscripci" ++ String o_acute "n: "
                    ++ display (or (Api.response_data e) (JStr (Api.message e)))))
           st)
  end.

(** [handleSearchChange]: the three search boxes are text fields.  A
    name other than theirs would add a property the filter never
    reads. *)
Definition handleSearchChange (name value : string) (st : St) : St :=
  let prev := search st in
  if String.eqb name "nota" then
    setSearch (MkSearch (s_curso prev) (s_estudiante prev) (normalizeNota value)) st
  else if String.eqb name "curso" then
    setSearch
      (MkSearch
         (substring0 50 (Regex.replace_all_empty Regex.re_non_letter_space value))
         (s_estudiante prev) (s_nota prev)) st
  else if String.eqb name "estudiante" then
    setSearch
      (MkSearch (s_curso prev)
         (substring0 50 (Regex.replace_all_empty Regex.re_non_letter_space value))
         (s_nota prev)) st
  else st.

(** [v.toString()]: a TypeError ([None]) on [null] and [undefined]. *)
Definition toString_method (v : jsval) : option string :=
  match v with
  | JUndefined | JNull => None
  | _ => Some (display v)
  end.

(** The predicate of [filteredInscripciones]; [&&] and [||] evaluate
    their right operand only when needed, so the grade is converted only
    when the two name tests pass and a grade is searched. *)
Definition matches (search : Search) (inscripcion : Inscripcion) : option bool :=
  if (String.eqb (s_curso search) ""
      || includes (toLowerCase (Cursos.nombre (curso inscripcion)))
                  (toLowerCase (s_curso search)))
     && (String.eqb (s_estudiante search) ""
         || includes
              (toLowerCase (e_nombre (estudiante inscripcion) ++ " "
                              ++ e_apellido (estudiante inscripcion)))
              (toLowerCase (s_estudiante search)))
  then
    if decide (s_nota search = JStr "") then Some true
    else match toString_method (nota inscripcion) with
         | Some shown => Some (includes shown (display (s_nota search)))
         | None => None
         end
  else Some false.

(** [Array.prototype.filter] with a predicate that may throw. *)
Fixpoint filter_throwing {A} (f : A → option bool) (l : list A)
  : option (list A) :=
  match l with
  | [] => Some []
  | x :: l' =>
      match f x with
      | None => None
      | Some b =>
          match filter_throwing f l' with
          | None => None
          | Some r => Some (if b then x :: r else r)
          end
      end
  end.

Definition filteredInscripciones (search : Search)
    (inscripciones : list Inscripcion) : option (list Inscripcion) :=
  filter_throwing (matches search) inscripciones.

End Inscripciones.

(** ** Estudiantes *)

Module Estudiantes.
Import JS Component.

(** The object the API returns for a student. *)
Definition to_object (e : Inscripciones.Estudiante) : gmap string jsval :=
  <["id" := JNum (Inscripciones.e_id e)]>
  (<["dni" := JStr (Inscripciones.e_dni e)]>
  (<["nombre" := JStr (Inscripciones.e_nombre e)]>
  (<["apellido" := JStr (Inscripciones.e_apellido e)]>
  (<["email" := JStr (Inscripciones.e_email e)]> ∅)))).

Definition emptyForm : gmap string jsval :=
  <["dni" := JStr ""]>
  (<["nombre" := JStr ""]>
  (<["apellido" := JStr ""]>
  (<["email" := JStr ""]> ∅))).

(** This section has no search boxes. *)
Abbreviation St := (State Inscripciones.Estudiante unit).

Definition initial : St := MkState [] JNull emptyForm tt JNull false JNull [].

Definition settleEstudiantes
    (listed : Api.outcome (list Inscripciones.Estudiante)) (st : St) : St :=
  match listed with
  | Api.Resolved data => setItems data st
  | Api.Rejected _ =>
      setError
        (JStr ("Error al cargar estudiantes. Verifica la conexi"
                 ++ String Inscripciones.o_acute "n.")) st
  end.

Definition loadEstudiantes
    (listed : Api.outcome (list Inscripciones.Estudiante)) (st : St) : St :=
  settleEstudiantes listed (request (Api.Get "/estudiantes") st).

(** The [switch (name)] of [handleChange]. *)
Definition newValue (name value : string) : string :=
  if String.eqb name "dni" then
    substring0 8 (Regex.replace_all_empty Regex.re_non_digit value)
  else if String.eqb name "nombre" || String.eqb name "apellido" then
    substring0 50 (Regex.replace_all_empty Regex.re_non_letter_space value)
  else if String.eqb name "email" then
    substring0 100 (Regex.replace_all_empty Regex.re_mail value)
  else value.

Definition handleChange (name value : string) (st : St) : St :=
  setForm (<[name := JStr (newValue name value)]> (form st)) st.

Definition handleSubmit (saved : Api.outcome unit)
    (listed : Api.outcome (list Inscripciones.Estudiante)) (st : St) : St :=
  let write :=
    if truthy (editing st)
    then Api.Put ("/estudiantes/" ++ display (editing st)) (form st)
    else Api.Post "/estudiantes" (form st) in
  let st := request write st in
  match saved with
  | Api.Resolved _ =>
      settleEstudiantes listed
        (setError JNull (setEditing JNull (setForm emptyForm
           (request (Api.Get "/estudiantes") st))))
  | Api.Rejected _ =>
      setError
        (JStr "Error al guardar estudiante. Verifica que los datos sean correctos.")
        st
  end.

Definition handleEdit (estudiante : Inscripciones.Estudiante) (st : St) : St :=
  setForm (to_object estudiante)
          (setEditing (JNum (Inscripciones.e_id estudiante)) st).

Definition handleDelete (i : Z) (st : St) : St :=
  setOpen true (setIdEliminar (JNum i) st).

Definition eliminarEstudiante (deleted : Api.outcome unit)
    (listed : Api.outcome (list Inscripciones.Estudiante)) (st : St) : St :=
  let st := request (Api.Delete ("/estudiantes/" ++ display (idEliminar st))) st in
  match deleted with
  | Api.Resolved _ =>
      settleEstudiantes listed
        (setError JNull (setOpen false (request (Api.Get "/estudiantes") st)))
  | Api.Rejected _ =>
      setOpen false
        (setError
           (JStr "Error al eliminar estudiante. Verifica que el ID sea correcto.")
           st)
  end.

End Estudiantes.

(** ** Vocabulary of the specification

    Notions the statements below use to describe inputs and results;
    none of them is part of the components. *)

Module Reading.
Import JS.

Definition all_digits (s : string) : bool :=
  forallb is_digit (list_ascii_of_string s).

(** The number a raw input denotes when it is a decimal literal: an
    optional minus sign, then digits with at most one point among them,
    such as ["15"], ["-3"] or ["10.5"].  The literal is read as the pair
    [(m, k)] that stands for [m / 10^k]: [m] is the signed integer made
    of all the digits and [k] counts the digits behind the point. *)
Fixpoint scan (seen_point seen_digit : bool) (m : Z) (k : nat) (s : string)
  : option (Z * nat) :=
  match s with
  | EmptyString => if seen_digit then Some (m, k) else None
  | String c r =>
      if is_digit c then
        scan seen_point true (10 * m + digit_val c)
             (if seen_point then S k else k) r
      else if Ascii.eqb c "." then
        if seen_point then None else scan true seen_digit m k r
      else None
  end.

Definition decimal_literal (s : string) : option (Z * nat) :=
  match s with
  | EmptyString => None
  | String c r =>
      if Ascii.eqb c "-" then
        match scan false false 0 O r with
        | Some (m, k) => Some (- m, k)
        | None => None
        end
      else scan false false 0 O s
  end.

(** [m / 10^k] lies outside the interval [0,10]. *)
Definition outside_0_10 (mk : Z * nat) : Prop :=
  fst mk < 0 ∨ 10 * 10 ^ Z.of_nat (snd mk) < fst mk.

(** Letters up to case, written without the lower-casing of the
    components.  The upper case letters among the code units 0..255 are
    A-Z and U+00C0..U+00DE except the multiplication sign U+00D7; the
    lower case form of each lies 32 code points above it. *)
Definition upper_case (c : ascii) : bool :=
  let n := N_of_ascii c in
  ((65 <=? n) && (n <=? 90)
   || (192 <=? n) && (n <=? 222) && negb (n =? 215))%N.

(** [l] is the lower case form of the upper case letter [u]. *)
Definition lower_form_of (u l : ascii) : bool :=
  upper_case u && (N_of_ascii l =? N_of_ascii u + 32)%N.

(** The same code unit, or the two cases of one letter. *)
Definition same_letter (a b : ascii) : bool :=
  Ascii.eqb a b || lower_form_of a b || lower_form_of b a.

(** Two strings that differ at most in the case of their letters. *)
Fixpoint equal_ignoring_case (s t : string) : bool :=
  match s, t with
  | EmptyString, EmptyString => true
  | String a s', String b t' => same_letter a b && equal_ignoring_case s' t'
  | _, _ => false
  end.

(** Case-insensitive substring containment: some substring of [field]
    is [needle] up to the case of its letters. *)
Definition contains_ignoring_case (field needle : string) : Prop :=
  ∃ pre mid post,
    field = pre ++ mid ++ post ∧ equal_ignoring_case mid needle = true.

(** Every code unit of the model. *)
Definition all_units : list ascii := List.map ascii_of_nat (seq 0 256).

(** No two neighbouring characters lie outside [[a-zA-Z0-9._%+-]]: the
    shape of ordinary text and of addresses such as [ana@uni.edu]. *)
Fixpoint no_foreign_pair (s : string) : bool :=
  match s with
  | EmptyString => true
  | String a r =>
      (Regex.mail_local a
       || match r with
          | EmptyString => true
          | String b _ => Regex.mail_local b
          end)
      && no_foreign_pair r
  end.

(** Every search box of [narrow] contains, up to case, what the same
    box of [wide] contains: [narrow] is [wide] with more typed around. *)
Definition narrows (narrow wide : Profesores.Search) : bool :=
  includes (toLowerCase (Profesores.s_dni narrow))
           (toLowerCase (Profesores.s_dni wide))
  && includes (toLowerCase (Profesores.s_nombre narrow))
              (toLowerCase (Profesores.s_nombre wide))
  && includes (toLowerCase (Profesores.s_apellido narrow))
              (toLowerCase (Profesores.s_apellido wide))
  && includes (toLowerCase (Profesores.s_email narrow))
              (toLowerCase (Profesores.s_email wide))
  && includes (toLowerCase (Profesores.s_profesion narrow))
              (toLowerCase (Profesores.s_profesion wide))
  && includes (toLowerCase (Profesores.s_telefono narrow))
              (toLowerCase (Profesores.s_telefono wide)).

End Reading.

(** Readings of a session of Profesores: a list of gestures and the log
    of requests it leaves. *)

Module Trace.

(** The ids on which "Eliminar" was clicked, in order. *)
Fixpoint eliminar_clicks (evs : list Profesores.event) : list Z :=
  match evs with
  | [] => []
  | Profesores.Eliminar i :: evs' => i :: eliminar_clicks evs'
  | _ :: evs' => eliminar_clicks evs'
  end.

(** Typing into a field of the form other than the key [id] (the form
    has no such input). *)
Definition typing (ev : Profesores.event) : bool :=
  match ev with
  | Profesores.Change name _ => negb (String.eqb name "id")
  | _ => false
  end.

(** The URLs of the DELETE requests of a log, in order. *)
Fixpoint delete_urls (cs : list Api.call) : list string :=
  match cs with
  | [] => []
  | Api.Delete url :: cs' => url :: delete_urls cs'
  | _ :: cs' => delete_urls cs'
  end.

(** Every delete sent so far, and the one the open dialog would send,
    is for an id of [clicked]. *)
Definition accounted (clicked : list Z) (st : Profesores.St) : Prop :=
  (Component.open st = true →
     ∃ i, In i clicked ∧ Component.idEliminar st = JS.JNum i)
  ∧ (∀ url, In url (delete_urls (Component.calls st)) →
       ∃ i, In i clicked ∧ url = "/profesores/" ++ JS.toString i).

(** The reloads (GET) and the mutating requests of a log. *)
Definition reloads (cs : list Api.call) : nat :=
  length (List.filter (fun c => negb (Api.is_write c)) cs).

Definition writes (cs : list Api.call) : nat :=
  length (List.filter Api.is_write cs).

(** The submits and confirmed deletes of a session, and those of them
    whose request succeeded. *)
Fixpoint mutations (evs : list Profesores.event) : nat :=
  match evs with
  | [] => O
  | Profesores.Submit _ _ :: evs' => S (mutations evs')
  | Profesores.DialogEliminar _ _ :: evs' => S (mutations evs')
  | _ :: evs' => mutations evs'
  end.

Fixpoint successes (evs : list Profesores.event) : nat :=
  match evs with
  | [] => O
  | Profesores.Submit (Api.Resolved _) _ :: evs' => S (successes evs')
  | Profesores.DialogEliminar (Api.Resolved _) _ :: evs' => S (successes evs')
  | _ :: evs' => successes evs'
  end.

End Trace.

(** Sample data of the scenarios. *)

Module Sample.
Import JS.

Definition ana : Profesores.Profesor :=
  Profesores.MkProfesor 7 "30111222" "Ana" "Paz" "ana@uni.edu" "Fisica" "1140000000".

Definition algebra : Cursos.Curso := Cursos.MkCurso 2 "Algebra" "Matrices" (Some ana).

Definition luis : Inscripciones.Estudiante :=
  Inscripciones.MkEstudiante 5 "40111222" "Luis" "Gil" "luis@uni.edu".

(** [{curso:{id:2,...}, estudiante:{id:5,...}, nota:8,
     fecha:"2024-03-01T00:00:00Z"}] *)
Definition enrollment : Inscripciones.Inscripcion :=
  Inscripciones.MkInscripcion 7 algebra luis (JNum 8) "2024-03-01T00:00:00Z".

End Sample.

(** * Properties *)

(** ** Strings *)

Section StringFacts.
Import JS.

Lemma chars_substring0 (n : nat) (s : string) :
  list_ascii_of_string (substring0 n s) = take n (list_ascii_of_string s).
Proof.
  unfold substring0. revert n.
  induction s as [|c r IH]; intros [|n]; simpl; try reflexivity.
  now rewrite IH.
Qed.

Lemma length_substring0 (n : nat) (s : string) :
  (String.length (substring0 n s) <= n)%nat.
Proof.
  unfold substring0. revert n.
  induction s as [|c r IH]; intros [|n]; simpl; try lia.
  specialize (IH n). lia.
Qed.

Lemma toLowerCase_app (a b : string) :
  toLowerCase (a ++ b) = toLowerCase a ++ toLowerCase b.
Proof. induction a as [|c a IH]; simpl; [reflexivity | now rewrite IH]. Qed.

(** A split of the lower-case form comes from a split of the string. *)
Lemma toLowerCase_split (s x y : string) :
  toLowerCase s = x ++ y →
  ∃ a b, s = a ++ b ∧ toLowerCase a = x ∧ toLowerCase b = y.
Proof.
  revert s. induction x as [|c x IH]; intros s H; simpl in H.
  - exists "", s. auto.
  - destruct s as [|d s]; simpl in H; [discriminate|].
    injection H as Hc Hs.
    destruct (IH s Hs) as (a & b & -> & Ha & Hb).
    exists (String d a), b. simpl. now rewrite Hc, Ha.
Qed.

Lemma startsWith_spec (s t : string) :
  startsWith s t = true ↔ ∃ post, s = t ++ post.
Proof.
  revert s. induction t as [|b t IH]; intros s.
  - destruct s; simpl; split; eauto.
  - destruct s as [|a s]; simpl.
    + split; [discriminate | intros [post H]; discriminate].
    + rewrite andb_true_iff, IH. split.
      * intros [Hab [post ->]]. apply Ascii.eqb_eq in Hab as ->. eauto.
      * intros [post H]. injection H as -> ->. split; [apply Ascii.eqb_refl | eauto].
Qed.

Lemma includes_spec (s t : string) :
  includes s t = true ↔ ∃ pre post, s = pre ++ t ++ post.
Proof.
  induction s as [|a s IH].
  - cbn [includes]. rewrite orb_false_r, startsWith_spec. split.
    + intros [post H]. exists "", post. exact H.
    + intros (pre & post & H). destruct pre; [eauto | discriminate].
  - cbn [includes]. rewrite orb_true_iff, startsWith_spec, IH. split.
    + intros [[post H] | (pre & post & H)].
      * exists "", post. exact H.
      * exists (String a pre), post. simpl. now rewrite H.
    + intros (pre & post & H). destruct pre as [|c pre]; simpl in H.
      * left. eauto.
      * right. injection H as _ H. eauto.
Qed.

Lemma includes_empty (s : string) : includes s "" = true.
Proof. destruct s; reflexivity. Qed.

(** [split] never returns the empty array, so [[0]] is a string. *)
Lemma split_nonempty (sep : ascii) (s : string) : split sep s ≠ [].
Proof.
  induction s as [|c r IH]; simpl; [discriminate|].
  destruct (Ascii.eqb c sep); [discriminate|].
  destruct (split sep r); discriminate.
Qed.

Lemma split_before_first (sep : ascii) (d rest : string) :
  includes d (String sep "") = false →
  split sep (d ++ String sep rest) = d :: split sep rest.
Proof.
  induction d as [|c d IH]; intros H.
  - simpl. now rewrite Ascii.eqb_refl.
  - cbn [includes startsWith] in H. apply orb_false_elim in H as [Hc Hd].
    assert (Ascii.eqb c sep = false) as Hne.
    { destruct (Ascii.eqb c sep); [destruct d; discriminate Hc | reflexivity]. }
    simpl. rewrite Hne, (IH Hd). reflexivity.
Qed.

Lemma split_without (sep : ascii) (s : string) :
  includes s (String sep "") = false → split sep s = [s].
Proof.
  induction s as [|c s IH]; intros H; [reflexivity|].
  cbn [includes startsWith] in H. apply orb_false_elim in H as [Hc Hs].
  assert (Ascii.eqb c sep = false) as Hne.
  { destruct (Ascii.eqb c sep); [destruct s; discriminate Hc | reflexivity]. }
  simpl. rewrite Hne, (IH Hs). reflexivity.
Qed.

End StringFacts.

(** ** Patterns of one class *)

Section RegexFacts.
Import Regex.

Lemma match_here_one (c : ascii → bool) (s : string) :
  match_here [one c] s =
  match s with
  | EmptyString => None
  | String a _ => if c a then Some 1%nat else None
  end.
Proof.
  destruct s as [|a r]; [reflexivity|].
  cbn. destruct (c a); [|reflexivity].
  destruct r; reflexivity.
Qed.

(** Deleting every match of a one-class pattern keeps exactly the code
    units outside the class, in order. *)
Lemma chars_replace_one (c : ascii → bool) (s : string) :
  list_ascii_of_string (replace_all_empty [one c] s)
  = List.filter (fun a => negb (c a)) (list_ascii_of_string s).
Proof.
  unfold replace_all_empty.
  induction s as [|a r IH]; [reflexivity|].
  cbn [delete_from]. rewrite match_here_one. cbn [list_ascii_of_string List.filter].
  destruct (c a); cbn [negb]; [exact IH|].
  cbn [list_ascii_of_string]. now rewrite IH.
Qed.

Lemma chars_replace_non_digit (s : string) :
  list_ascii_of_string (replace_all_empty re_non_digit s)
  = List.filter JS.is_digit (list_ascii_of_string s).
Proof.
  unfold re_non_digit. rewrite chars_replace_one.
  apply List.filter_ext. intros a. unfold non_digit. apply negb_involutive.
Qed.

Lemma chars_replace_non_letter_space (s : string) :
  list_ascii_of_string (replace_all_empty re_non_letter_space s)
  = List.filter (fun a => JS.is_letter a || JS.is_space a) (list_ascii_of_string s).
Proof.
  unfold re_non_letter_space. rewrite chars_replace_one.
  apply List.filter_ext. intros a. unfold non_letter_space. apply negb_involutive.
Qed.

End RegexFacts.

(** ** Normalisation of form fields *)

Section Normalisation.
Import JS Component.

Lemma digit_val_range (c : ascii) : is_digit c = true → 0 ≤ digit_val c ≤ 9.
Proof.
  unfold is_digit, in_range, digit_val.
  change (code "0") with 48%N. change (code "9") with 57%N.
  rewrite andb_true_iff, !N.leb_le. lia.
Qed.

Lemma parse_digits_ge (s : string) (acc : Z) : 0 ≤ acc → acc ≤ parse_digits acc s.
Proof.
  revert acc. induction s as [|c r IH]; intros acc Hacc; simpl; [lia|].
  destruct (is_digit c) eqn:Hc; [|lia].
  pose proof (digit_val_range c Hc).
  specialize (IH (10 * acc + digit_val c)). lia.
Qed.

Lemma parseInt_cases (d : string) :
  parseInt d = JNaN ∨ ∃ p, parseInt d = JNum p ∧ 0 ≤ p.
Proof.
  destruct d as [|c r]; [now left|].
  unfold parseInt. destruct (is_digit c); [right | now left].
  eexists. split; [reflexivity|]. apply parse_digits_ge. lia.
Qed.

(** The grade rule, case by case on what [parseInt] reads. *)
Lemma normalizeNota_NaN (value : string) :
  parseInt (Regex.replace_all_empty Regex.re_non_digit value) = JNaN →
  Inscripciones.normalizeNota value = JStr "".
Proof. unfold Inscripciones.normalizeNota. now intros ->. Qed.

Lemma normalizeNota_Num (value : string) (p : Z) :
  parseInt (Regex.replace_all_empty Regex.re_non_digit value) = JNum p →
  0 ≤ p →
  Inscripciones.normalizeNota value
  = if p =? 0 then JStr "" else JNum (Z.min 10 p).
Proof.
  unfold Inscripciones.normalizeNota. intros -> Hp.
  cbn [Math_min Math_max]. unfold or. cbn [truthy].
  replace (Z.max 0 (Z.min 10 p)) with (Z.min 10 p) by lia.
  destruct (Z.eqb_spec p 0) as [->|Hne]; [reflexivity|].
  destruct (Z.eqb_spec (Z.min 10 p) 0); [lia | reflexivity].
Qed.

(** Whatever is typed, the grade held by the form is the empty string or
    a number from 1 to 10. *)
Lemma normalizeNota_range (value : string) :
  Inscripciones.normalizeNota value = JStr ""
  ∨ ∃ n, Inscripciones.normalizeNota value = JNum n ∧ 1 ≤ n ≤ 10.
Proof.
  destruct (parseInt_cases (Regex.replace_all_empty Regex.re_non_digit value))
    as [H | (p & H & Hp)].
  - left. now apply normalizeNota_NaN.
  - rewrite (normalizeNota_Num _ _ H Hp).
    destruct (Z.eqb_spec p 0); [now left | right].
    eexists. split; [reflexivity | lia].
Qed.

Lemma replace_non_digit_cons (c : ascii) (r : string) :
  Regex.replace_all_empty Regex.re_non_digit (String c r)
  = if is_digit c then String c (Regex.replace_all_empty Regex.re_non_digit r)
    else Regex.replace_all_empty Regex.re_non_digit r.
Proof.
  unfold Regex.replace_all_empty, Regex.re_non_digit.
  cbn [Regex.delete_from]. rewrite match_here_one. unfold Regex.non_digit.
  now destruct (is_digit c).
Qed.

(** The digits left by the stripping spell the mantissa of the literal,
    and there is at least one of them. *)
Lemma scan_mantissa (s : string) :
  ∀ seen_point seen_digit m0 k0 m k,
    Reading.scan seen_point seen_digit m0 k0 s = Some (m, k) →
    parse_digits m0 (Regex.replace_all_empty Regex.re_non_digit s) = m.
Proof.
  induction s as [|c r IH]; intros b g m0 k0 m k; cbn [Reading.scan].
  - destruct g; [|discriminate]. now intros [= <- _].
  - rewrite replace_non_digit_cons. destruct (is_digit c) eqn:Hc.
    + cbn [parse_digits]. rewrite Hc. apply IH.
    + destruct (Ascii.eqb c "."); [|discriminate].
      destruct b; [discriminate|]. apply IH.
Qed.

Lemma scan_has_digit (s : string) :
  ∀ seen_point m0 k0 mk,
    Reading.scan seen_point false m0 k0 s = Some mk →
    ∃ c r, Regex.replace_all_empty Regex.re_non_digit s = String c r
           ∧ is_digit c = true.
Proof.
  induction s as [|c r IH]; intros b m0 k0 mk; cbn [Reading.scan]; [discriminate|].
  rewrite replace_non_digit_cons. destruct (is_digit c) eqn:Hc.
  - intros _. eauto.
  - destruct (Ascii.eqb c "."); [|discriminate].
    destruct b; [discriminate|]. apply IH.
Qed.

Lemma normalizeNota_scan (s : string) (m : Z) (k : nat) :
  Reading.scan false false 0 O s = Some (m, k) →
  0 ≤ m
  ∧ Inscripciones.normalizeNota s
    = if m =? 0 then JStr "" else JNum (Z.min 10 m).
Proof.
  intros H.
  destruct (scan_has_digit _ _ _ _ _ H) as (c & r & Hs & Hc).
  pose proof (scan_mantissa _ _ _ _ _ _ _ H) as Hm.
  assert (0 ≤ m) as Hpos by (rewrite <- Hm; apply parse_digits_ge; lia).
  split; [exact Hpos|].
  apply normalizeNota_Num; [|exact Hpos].
  rewrite Hs in *. unfold parseInt. now rewrite Hc, Hm.
Qed.

(** What the grade rule does to a decimal literal: sign and point are
    dropped, the digits are read as one integer. *)
Lemma normalizeNota_literal (value : string) (m : Z) (k : nat) :
  Reading.decimal_literal value = Some (m, k) →
  Inscripciones.normalizeNota value
  = if Z.abs m =? 0 then JStr "" else JNum (Z.min 10 (Z.abs m)).
Proof.
  destruct value as [|c r]; [discriminate|].
  unfold Reading.decimal_literal.
  destruct (Ascii.eqb_spec c "-") as [->|Hc].
  - destruct (Reading.scan false false 0 0 r) as [[m' k']|] eqn:Hscan; [|discriminate].
    intros [= <- <-].
    destruct (normalizeNota_scan _ _ _ Hscan) as [Hpos Hn].
    rewrite Z.abs_opp, Z.abs_eq by exact Hpos. rewrite <- Hn.
    unfold Inscripciones.normalizeNota. now rewrite replace_non_digit_cons.
  - intros Hscan.
    destruct (normalizeNota_scan _ _ _ Hscan) as [Hpos Hn].
    now rewrite Z.abs_eq by exact Hpos.
Qed.

(** C1. For every raw grade input whose value lies outside [0,10], the
    field-change handler of the enrollment form holds a number clamped
    into [0,10]: the digits that remain after stripping every other
    character (sign and point are lost) are parsed and forced into the
    range by max-0/min-10.  In particular "15" is held as 10, which is
    shown as "10". *)
Theorem nota_outside_range_is_clamped
    (value : string) (m : Z) (k : nat) (st : Inscripciones.St) :
  Reading.decimal_literal value = Some (m, k) →
  Reading.outside_0_10 (m, k) →
  ∃ n,
    Inscripciones.handleChange "nota" (JStr value) st
      = Some (setForm (<["nota" := JNum n]> (form st)) st)
    ∧ 0 ≤ n ≤ 10
    ∧ n = Z.min 10 (Z.abs m)
    ∧ (10 * 10 ^ Z.of_nat k < m → n = 10)
    ∧ display (Inscripciones.normalizeNota "15") = "10".
Proof.
  unfold Reading.outside_0_10. cbn [fst snd].
  intros Hv Hout. exists (Z.min 10 (Z.abs m)).
  assert (0 < 10 ^ Z.of_nat k) by (apply Z.pow_pos_nonneg; lia).
  split; [|repeat split; try lia; reflexivity].
  unfold Inscripciones.handleChange. cbn [String.eqb Ascii.eqb Bool.eqb].
  rewrite (normalizeNota_literal _ _ _ Hv).
  destruct (Z.eqb_spec (Z.abs m) 0); [lia | reflexivity].
Qed.

Lemma nota_outside_range_is_clamped_witness :
  Reading.decimal_literal "15" = Some (15, O)
  ∧ Reading.outside_0_10 (15, O)
  ∧ ∃ n,
      Inscripciones.handleChange "nota" (JStr "15") Inscripciones.initial
        = Some (setForm (<["nota" := JNum n]> Inscripciones.emptyForm)
                        Inscripciones.initial)
      ∧ 0 ≤ n ≤ 10
      ∧ n = Z.min 10 (Z.abs 15)
      ∧ (10 * 10 ^ Z.of_nat 0 < 15 → n = 10)
      ∧ display (Inscripciones.normalizeNota "15") = "10".
Proof.
  split; [reflexivity|]. split; [right; cbn; lia|].
  apply (nota_outside_range_is_clamped "15" 15 O Inscripciones.initial);
    [reflexivity | right; cbn; lia].
Defined.

(** C10. In the enrollment form, every grade input whose digits parse to
    the number 0 (such as "0") is held as the empty string: the clamped
    result 0 is falsy and is replaced by the fallback [''].  No input at
    all makes the handler hold the number 0. *)
Theorem nota_zero_becomes_empty (value : string) (st : Inscripciones.St) :
  parseInt (Regex.replace_all_empty Regex.re_non_digit value) = JNum 0 →
  Inscripciones.handleChange "nota" (JStr value) st
    = Some (setForm (<["nota" := JStr ""]> (form st)) st)
  ∧ ∀ other st',
      Inscripciones.handleChange "nota" (JStr other) st = Some st' →
      form st' !! "nota" ≠ Some (JNum 0).
Proof.
  intros H. split.
  - unfold Inscripciones.handleChange. cbn [String.eqb Ascii.eqb Bool.eqb].
    now rewrite (normalizeNota_Num _ 0 H ltac:(lia)).
  - intros other st'. unfold Inscripciones.handleChange.
    cbn [String.eqb Ascii.eqb Bool.eqb]. intros Heq.
    apply (inj Some) in Heq. subst st'. cbn [form setForm].
    rewrite lookup_insert_eq. intros Heq. injection Heq as Heq.
    destruct (normalizeNota_range other) as [E | (n & E & Hn)];
      rewrite E in Heq; [discriminate | injection Heq as ->; lia].
Qed.

Lemma nota_zero_becomes_empty_witness :
  parseInt (Regex.replace_all_empty Regex.re_non_digit "0") = JNum 0
  ∧ Inscripciones.handleChange "nota" (JStr "0") Inscripciones.initial
      = Some (setForm (<["nota" := JStr ""]> Inscripciones.emptyForm)
                      Inscripciones.initial)
  ∧ ∀ other st',
      Inscripciones.handleChange "nota" (JStr other) Inscripciones.initial
        = Some st' →
      form st' !! "nota" ≠ Some (JNum 0).
Proof.
  split; [reflexivity|].
  apply (nota_zero_becomes_empty "0" Inscripciones.initial). reflexivity.
Defined.

(** C9. For every raw DNI input, the value the field-change handler
    holds is the input with every non-digit character removed, cut to
    its first 8 characters; "12a3!4" becomes "1234". *)
Theorem dni_keeps_first_eight_digits :
  (∀ (value : string) (st : Profesores.St),
     ∃ newValue,
       Profesores.handleChange "dni" value st
         = setForm (<["dni" := JStr newValue]> (form st)) st
       ∧ list_ascii_of_string newValue
         = take 8 (List.filter is_digit (list_ascii_of_string value))
       ∧ (String.length newValue <= 8)%nat)
  ∧ ∀ st : Profesores.St,
      form (Profesores.handleChange "dni" "12a3!4" st) !! "dni"
      = Some (JStr "1234").
Proof.
  split.
  - intros value st.
    exists (substring0 8 (Regex.replace_all_empty Regex.re_non_digit value)).
    split; [reflexivity|]. split.
    + now rewrite chars_substring0, chars_replace_non_digit.
    + apply length_substring0.
  - intros st. unfold Profesores.handleChange. cbn [form setForm].
    now rewrite lookup_insert_eq.
Qed.

(** C2, as the code has it.  The name field of the Cursos form is only
    cut to 50 characters: the stripped string is computed and then
    overwritten by a cut of the raw input, so digits and punctuation
    stay ("Algebra1" is held as typed).  The search field of the same
    component applies both steps ("Algebra1" becomes "Algebra"). *)
Theorem cursos_nombre_is_only_truncated :
  (∀ (value : string) (st : Cursos.St),
     Cursos.handleChange "nombre" (JStr value) st
     = Some (setForm (<["nombre" := JStr (substring0 50 value)]> (form st)) st))
  ∧ Cursos.handleChange "nombre" (JStr "Algebra1") Cursos.initial
    = Some (setForm (<["nombre" := JStr "Algebra1"]> Cursos.emptyForm)
                    Cursos.initial)
  ∧ Regex.replace_all_empty Regex.re_non_letter_space "Algebra1" = "Algebra"
  ∧ Cursos.s_nombre
      (search (Cursos.handleSearchChange "nombre" "Algebra1" Cursos.initial))
    = "Algebra".
Proof. repeat split. Qed.

End Normalisation.

(** ** Edit, save and delete flows of Profesores *)

Section Flows.
Import JS Component Profesores.

Lemma to_object_not_empty (p : Profesor) : to_object p ≠ emptyForm.
Proof.
  intros H. apply (f_equal (lookup "id")) in H.
  unfold to_object in H. rewrite lookup_insert_eq in H. discriminate H.
Qed.

Lemma calls_loadProfesores (listed : Api.outcome (list Profesor)) (st : St) :
  calls (loadProfesores listed st) = (calls st ++ [Api.Get "/profesores"])%list.
Proof. destruct listed; reflexivity. Qed.

Lemma filter_is_delete_app (a b : list Api.call) :
  List.filter Api.is_delete (a ++ b)%list
  = (List.filter Api.is_delete a ++ List.filter Api.is_delete b)%list.
Proof. apply List.filter_app. Qed.

(** The sequence "Editar" then "Cancelar" on the teacher [Sample.ana]
    from the initial state ends with her data still in the form. *)
Lemma edit_then_cancel_form_not_empty :
  ∃ st',
    run [Editar Sample.ana; Cancelar] initial = Some st'
    ∧ form st' !! "nombre" = Some (JStr "Ana")
    ∧ form st' ≠ emptyForm.
Proof.
  eexists. split; [reflexivity|]. split; [reflexivity|].
  apply to_object_not_empty.
Qed.

(** C3, amended.  For every teacher (whose id is truthy, so that the
    cancel button is shown), starting an edit and then pressing cancel
    clears the editing flag, issues no request and leaves the list cache
    as it was; the form keeps the values loaded from the teacher, it is
    not put back to the empty payload. *)
Theorem edit_then_cancel_leaves_edit_mode (p : Profesor) (st : St) :
  id p ≠ 0 →
  ∃ st',
    run [Editar p; Cancelar] st = Some st'
    ∧ editing st' = JNull
    ∧ form st' = to_object p
    ∧ form st' ≠ emptyForm
    ∧ calls st' = calls st
    ∧ items st' = items st.
Proof.
  intros Hid. eexists. split.
  - cbn [run step handleEdit editing setForm setEditing truthy].
    destruct (Z.eqb_spec (id p) 0) as [E|_]; [contradiction | reflexivity].
  - cbn. repeat split. apply to_object_not_empty.
Qed.

Lemma edit_then_cancel_leaves_edit_mode_witness :
  id Sample.ana ≠ 0
  ∧ ∃ st',
      run [Editar Sample.ana; Cancelar] initial = Some st'
      ∧ editing st' = JNull
      ∧ form st' = to_object Sample.ana
      ∧ form st' ≠ emptyForm
      ∧ calls st' = calls initial
      ∧ items st' = items initial.
Proof.
  split; [discriminate|].
  apply (edit_then_cancel_leaves_edit_mode Sample.ana initial). discriminate.
Defined.

(** C4. For every confirm click in the delete dialog, exactly one delete
    request is issued, for the captured id, and the dialog is closed
    afterwards whether the request succeeded or failed; a cancel click
    closes the dialog without any request. *)
Theorem confirm_deletes_once_and_closes
    (deleted : Api.outcome unit) (listed : Api.outcome (list Profesor)) (st : St) :
  open st = true →
  (∃ st',
     step (DialogEliminar deleted listed) st = Some st'
     ∧ open st' = false
     ∧ List.filter Api.is_delete (calls st')
       = (List.filter Api.is_delete (calls st)
          ++ [Api.Delete ("/profesores/" ++ display (idEliminar st))])%list)
  ∧ (∃ st',
       step DialogCancelar st = Some st'
       ∧ open st' = false
       ∧ calls st' = calls st).
Proof.
  intros Hopen. split.
  - eexists. split; [cbn [step]; rewrite Hopen; reflexivity|].
    unfold eliminarProfesor. destruct deleted as [[]|e].
    + split; [reflexivity|].
      cbn [calls setError setOpen]. rewrite calls_loadProfesores.
      cbn [calls request]. rewrite !filter_is_delete_app. cbn [List.filter Api.is_delete].
      now rewrite app_nil_r.
    + split; [reflexivity|].
      cbn [calls setError setOpen request]. rewrite filter_is_delete_app.
      reflexivity.
  - eexists. split; [cbn [step]; rewrite Hopen; reflexivity|].
    split; reflexivity.
Qed.

Lemma confirm_deletes_once_and_closes_witness :
  open (handleDelete 7 initial) = true
  ∧ (∃ st',
       step (DialogEliminar (Api.Rejected (Api.Error JUndefined "Network Error"))
                            (Api.Resolved []))
            (handleDelete 7 initial) = Some st'
       ∧ open st' = false
       ∧ List.filter Api.is_delete (calls st')
         = (List.filter Api.is_delete (calls (handleDelete 7 initial))
            ++ [Api.Delete ("/profesores/"
                              ++ display (idEliminar (handleDelete 7 initial)))])%list)
  ∧ (∃ st',
       step DialogCancelar (handleDelete 7 initial) = Some st'
       ∧ open st' = false
       ∧ calls st' = calls (handleDelete 7 initial)).
Proof.
  split; [reflexivity|].
  apply (confirm_deletes_once_and_closes
           (Api.Rejected (Api.Error JUndefined "Network Error"))
           (Api.Resolved []) (handleDelete 7 initial)).
  reflexivity.
Defined.

(** The id captured by "Eliminar" is the one the request names. *)
Lemma captured_id_in_url (i : Z) (st : St) :
  "/profesores/" ++ display (idEliminar (handleDelete i st))
  = "/profesores/" ++ toString i.
Proof. reflexivity. Qed.

(** C5. When the create or update request fails, the submit handler
    leaves the payload of the form and the editing flag as they were,
    so that a second submit sends the same request again. *)
Theorem failed_save_keeps_form
    (e : Api.error) (listed : Api.outcome (list Profesor)) (st : St) :
  let st' := handleSubmit (Api.Rejected e) listed st in
  form st' = form st
  ∧ editing st' = editing st
  ∧ ∃ w,
      Api.is_write w = true
      ∧ calls st' = (calls st ++ [w])%list
      ∧ ∀ saved listed',
          ∃ rest, calls (handleSubmit saved listed' st') = (calls st' ++ w :: rest)%list.
Proof.
  cbn zeta. unfold handleSubmit at 1 2 3. cbn [form editing calls setError request].
  repeat split.
  exists (if truthy (editing st)
          then Api.Put ("/profesores/" ++ display (editing st)) (form st)
          else Api.Post "/profesores" (form st)).
  split; [now destruct (truthy (editing st))|]. split; [reflexivity|].
  intros saved listed'. unfold handleSubmit.
  cbn [form editing calls setError request].
  destruct saved as [[]|e'].
  - cbn [calls setError setEditing setForm]. rewrite calls_loadProfesores.
    cbn [calls request]. rewrite <- app_assoc. eexists. reflexivity.
  - cbn [calls setError request]. eexists. reflexivity.
Qed.

End Flows.

(** ** Editing an enrollment *)

Section EnrollmentEdit.
Import JS Component Inscripciones.

(** The date part is always a string: the whole [fecha] when it has no
    'T'. *)
Lemma fechaForm_without_T (fecha : string) :
  includes fecha "T" = false → fechaForm fecha = JStr fecha.
Proof. intros H. unfold fechaForm. now rewrite (split_without _ _ H). Qed.

(** C6. For every enrollment read back with nested course and student
    and a timestamp [fecha], starting an edit fills the form with the
    flattened keys: cursoId = curso.id, estudianteId = estudiante.id,
    nota as read, and fecha cut to the part before the first 'T'. *)
Theorem edit_flattens_enrollment
    (inscripcion : Inscripcion) (st : St) (day rest : string) :
  fecha inscripcion = day ++ String "T" rest →
  includes day "T" = false →
  let st' := handleEdit inscripcion st in
  editing st' = JNum (id inscripcion)
  ∧ form st'
    = <["cursoId" := JNum (Cursos.id (curso inscripcion))]>
      (<["estudianteId" := JNum (e_id (estudiante inscripcion))]>
      (<["nota" := nota inscripcion]>
      (<["fecha" := JStr day]> ∅)))
  ∧ calls st' = calls st.
Proof.
  intros Hfecha Hday. cbn zeta. unfold handleEdit, fechaForm.
  rewrite Hfecha, (split_before_first _ _ _ Hday).
  repeat split.
Qed.

Lemma edit_flattens_enrollment_witness :
  fecha Sample.enrollment = "2024-03-01" ++ String "T" "00:00:00Z"
  ∧ includes "2024-03-01" "T" = false
  ∧ editing (handleEdit Sample.enrollment initial) = JNum 7
  ∧ form (handleEdit Sample.enrollment initial)
    = <["cursoId" := JNum 2]>
      (<["estudianteId" := JNum 5]>
      (<["nota" := JNum 8]>
      (<["fecha" := JStr "2024-03-01"]> ∅)))
  ∧ calls (handleEdit Sample.enrollment initial) = calls initial.
Proof.
  split; [reflexivity|]. split; [reflexivity|].
  apply (edit_flattens_enrollment Sample.enrollment initial
           "2024-03-01" "00:00:00Z"); reflexivity.
Defined.

End EnrollmentEdit.

(** ** Filter views *)

Section Filters.
Import JS.

Lemma in_all_units (a : ascii) : In a Reading.all_units.
Proof.
  unfold Reading.all_units. rewrite <- (ascii_nat_embedding a).
  apply in_map, in_seq. pose proof (nat_ascii_bounded a). lia.
Qed.

(** The lower-casing of the components identifies exactly the two cases
    of a letter; checked on all pairs of code units. *)
Lemma lower_unit_same_letter (a b : ascii) :
  Ascii.eqb (lower_unit a) (lower_unit b) = Reading.same_letter a b.
Proof.
  assert (forallb
            (fun x => forallb
               (fun y => Bool.eqb (Ascii.eqb (lower_unit x) (lower_unit y))
                                  (Reading.same_letter x y))
               Reading.all_units)
            Reading.all_units = true) as H by (vm_compute; reflexivity).
  rewrite forallb_forall in H. specialize (H a (in_all_units a)).
  rewrite forallb_forall in H. specialize (H b (in_all_units b)).
  now apply Bool.eqb_prop in H.
Qed.

Lemma toLowerCase_equal (s t : string) :
  toLowerCase s = toLowerCase t ↔ Reading.equal_ignoring_case s t = true.
Proof.
  revert t. induction s as [|a s IH]; intros [|b t];
    cbn [toLowerCase Reading.equal_ignoring_case]; try (split; discriminate).
  - split; reflexivity.
  - rewrite andb_true_iff, <- IH, <- lower_unit_same_letter, Ascii.eqb_eq.
    split; [intros [= Hc Hs]; now split | intros [-> ->]; reflexivity].
Qed.

(** What the code tests, [field.toLowerCase().includes(q.toLowerCase())],
    is case-insensitive containment. *)
Lemma includes_ignoring_case (field needle : string) :
  includes (toLowerCase field) (toLowerCase needle) = true
  ↔ Reading.contains_ignoring_case field needle.
Proof.
  rewrite includes_spec. unfold Reading.contains_ignoring_case. split.
  - intros (x & z & H).
    destruct (toLowerCase_split _ _ _ H) as (pre & tail & -> & _ & Htail).
    destruct (toLowerCase_split _ _ _ Htail) as (mid & post & -> & Hmid & _).
    exists pre, mid, post. split; [reflexivity | now apply toLowerCase_equal].
  - intros (pre & mid & post & -> & Hmid). apply toLowerCase_equal in Hmid.
    exists (toLowerCase pre), (toLowerCase post).
    now rewrite !toLowerCase_app, Hmid.
Qed.

Lemma pretty_N_go_keeps (x : N) (s : string) : s ≠ "" → pretty_N_go x s ≠ "".
Proof.
  revert s. induction x as [x IH] using (well_founded_induction N.lt_wf_0).
  intros s Hs. destruct (N.eq_dec x 0%N) as [->|Hx].
  - now rewrite pretty_N_go_0.
  - assert (0 < x)%N as Hpos by lia.
    rewrite (pretty_N_go_step x s Hpos).
    apply IH; [now apply N.div_lt | discriminate].
Qed.

Lemma toString_nonempty (k : Z) : toString k ≠ "".
Proof.
  unfold toString, pretty, pretty_Z.
  destruct k as [|p|p]; [discriminate | | discriminate].
  unfold pretty, pretty_positive, pretty, pretty_N.
  destruct (decide (N.pos p = 0%N)); [discriminate|].
  rewrite pretty_N_go_step by lia.
  apply pretty_N_go_keeps. discriminate.
Qed.

Lemma filter_twice {A} (f : A → bool) (l : list A) :
  List.filter f (List.filter f l) = List.filter f l.
Proof.
  induction l as [|a l IH]; [reflexivity|].
  cbn [List.filter]. destruct (f a) eqn:Ha; [|exact IH].
  cbn [List.filter]. now rewrite Ha, IH.
Qed.

Local Abbreviation cic := Reading.contains_ignoring_case.

(** The two predicates, field by field. *)
Lemma matches_field_by_field :
  (∀ (search : Profesores.Search) (p : Profesores.Profesor),
     Profesores.matches search p = true
     ↔ cic (Profesores.dni p) (Profesores.s_dni search)
       ∧ cic (Profesores.nombre p) (Profesores.s_nombre search)
       ∧ cic (Profesores.apellido p) (Profesores.s_apellido search)
       ∧ cic (Profesores.email p) (Profesores.s_email search)
       ∧ cic (Profesores.profesion p) (Profesores.s_profesion search)
       ∧ cic (Profesores.telefono p) (Profesores.s_telefono search))
  ∧ (∀ (search : Cursos.Search) (c : Cursos.Curso),
       Cursos.matches search c = true
       ↔ cic (Cursos.nombre c) (Cursos.s_nombre search)
         ∧ cic (Cursos.descripcion c) (Cursos.s_descripcion search)
         ∧ (Cursos.s_profesorId search = ""
            ∨ ∃ p, Cursos.profesor c = Some p
                   ∧ toString (Profesores.id p) = Cursos.s_profesorId search))
  ∧ (∀ (n d : string) (k : Z) (c : Cursos.Curso),
       Cursos.matches (Cursos.MkSearch n d (toString k)) c = true
       ↔ cic (Cursos.nombre c) n
         ∧ cic (Cursos.descripcion c) d
         ∧ ∃ p, Cursos.profesor c = Some p ∧ Profesores.id p = k).
Proof.
  assert (∀ (search : Cursos.Search) (c : Cursos.Curso),
       Cursos.matches search c = true
       ↔ cic (Cursos.nombre c) (Cursos.s_nombre search)
         ∧ cic (Cursos.descripcion c) (Cursos.s_descripcion search)
         ∧ (Cursos.s_profesorId search = ""
            ∨ ∃ p, Cursos.profesor c = Some p
                   ∧ toString (Profesores.id p) = Cursos.s_profesorId search))
    as Hcursos.
  { intros search c. unfold Cursos.matches.
    rewrite !andb_true_iff, orb_true_iff, !includes_ignoring_case, String.eqb_eq.
    split.
    - intros [[Hn Hd] Hp]. repeat split; try assumption.
      destruct Hp as [Hp|Hp]; [now left | right].
      destruct (Cursos.profesor c) as [p|]; [|discriminate].
      exists p. split; [reflexivity | now apply String.eqb_eq].
    - intros (Hn & Hd & Hp). repeat split; try assumption.
      destruct Hp as [Hp | (p & -> & Hp)]; [now left | right].
      now apply String.eqb_eq. }
  split; [|split; [exact Hcursos|]].
  - intros search p. unfold Profesores.matches.
    rewrite !andb_true_iff, !includes_ignoring_case. tauto.
  - intros n d k c. rewrite Hcursos. cbn [Cursos.s_nombre Cursos.s_descripcion
                                          Cursos.s_profesorId].
    split.
    + intros (Hn & Hd & [He | (p & Hp & Hid)]).
      * now destruct (toString_nonempty k).
      * repeat split; try assumption. exists p. split; [assumption|].
        now apply (inj pretty).
    + intros (Hn & Hd & p & Hp & <-). repeat split; try assumption.
      right. now exists p.
Qed.


(** C8. For every list of entities and every filter state, filtering the
    filtered list again gives the same list. *)
Theorem filtering_is_idempotent :
  (∀ (search : Profesores.Search) (profesores : list Profesores.Profesor),
     Profesores.filteredProfesores search
       (Profesores.filteredProfesores search profesores)
     = Profesores.filteredProfesores search profesores)
  ∧ (∀ (search : Cursos.Search) (cursos : list Cursos.Curso),
       Cursos.filteredCursos search (Cursos.filteredCursos search cursos)
       = Cursos.filteredCursos search cursos).
Proof. split; intros search l; apply filter_twice. Qed.

End Filters.

(** * Further properties of the components *)

(** ** Field rules *)

Section FieldRules.
Import JS Component.

Lemma string_by_chars (a b : string) :
  list_ascii_of_string a = list_ascii_of_string b → a = b.
Proof.
  intros H. rewrite <- (string_of_list_ascii_of_string a),
              <- (string_of_list_ascii_of_string b). now rewrite H.
Qed.

Lemma filter_all {A} (f : A → bool) (l : list A) :
  forallb f l = true → List.filter f l = l.
Proof.
  induction l as [|a l IH]; [reflexivity|]. cbn [forallb List.filter].
  intros H. apply andb_true_iff in H as [-> Hl]. now rewrite (IH Hl).
Qed.

Lemma forallb_take_filter {A} (f : A → bool) (n : nat) (l : list A) :
  forallb f (take n (List.filter f l)) = true.
Proof.
  revert n. induction l as [|a l IH]; intros n; [now destruct n|].
  cbn [List.filter]. destruct (f a) eqn:Ha; [|apply IH].
  destruct n as [|n]; [reflexivity|]. cbn [take forallb]. now rewrite Ha, IH.
Qed.

(** Stripping a class and cutting, applied to its own result. *)
Lemma cut_strip_again (c : ascii → bool) (n : nat) (s : string) :
  let rule v := substring0 n (Regex.replace_all_empty [Regex.one c] v) in
  rule (rule s) = rule s.
Proof.
  cbn zeta. apply string_by_chars.
  rewrite !chars_substring0, !chars_replace_one, chars_substring0, chars_replace_one.
  rewrite (filter_all _ _ (forallb_take_filter _ n _)).
  now rewrite take_take, Nat.min_id.
Qed.

Lemma strip_again (c : ascii → bool) (s : string) :
  let rule v := Regex.replace_all_empty [Regex.one c] v in
  rule (rule s) = rule s.
Proof.
  cbn zeta. apply string_by_chars. rewrite !chars_replace_one.
  apply filter_all. rewrite <- (firstn_all (List.filter _ _)).
  apply forallb_take_filter.
Qed.

(** X1. In the form of Profesores the rule of every field but [email]
    is idempotent: a value that went through the rule is left as it is
    when the rule is applied to it again. *)
Theorem profesores_field_rule_idempotent (name value : string) :
  name ≠ "email" →
  Profesores.newValue name (Profesores.newValue name value)
  = Profesores.newValue name value.
Proof.
  intros Hname. unfold Profesores.newValue.
  destruct (String.eqb name "dni"); [apply cut_strip_again|].
  destruct (String.eqb name "nombre" || String.eqb name "profesion"
            || String.eqb name "apellido"); [apply strip_again|].
  destruct (String.eqb_spec name "email") as [E|_]; [contradiction|].
  destruct (String.eqb name "telefono"); [apply cut_strip_again | reflexivity].
Qed.

Lemma profesores_field_rule_idempotent_witness :
  "telefono" ≠ "email"
  ∧ Profesores.newValue "telefono" (Profesores.newValue "telefono" "+54 (11) 4000-0000")
    = Profesores.newValue "telefono" "+54 (11) 4000-0000".
Proof.
  split; [discriminate|].
  apply (profesores_field_rule_idempotent "telefono" "+54 (11) 4000-0000").
  discriminate.
Defined.

(** X2. In the form of Profesores the phone holds the first 20 digits of
    what was typed; name, profession and surname hold all the letters
    and white space typed, in order and without any cut in length. *)
Theorem profesores_phone_and_names :
  (∀ (value : string) (st : Profesores.St),
     ∃ v, Profesores.handleChange "telefono" value st
          = setForm (<["telefono" := JStr v]> (form st)) st
          ∧ list_ascii_of_string v
            = take 20 (List.filter is_digit (list_ascii_of_string value)))
  ∧ ∀ (name value : string) (st : Profesores.St),
      name = "nombre" ∨ name = "profesion" ∨ name = "apellido" →
      ∃ v, Profesores.handleChange name value st
           = setForm (<[name := JStr v]> (form st)) st
           ∧ list_ascii_of_string v
             = List.filter (fun a => is_letter a || is_space a)
                           (list_ascii_of_string value).
Proof.
  split.
  - intros value st. eexists. split; [reflexivity|].
    cbn [Profesores.newValue String.eqb Ascii.eqb Bool.eqb orb].
    now rewrite chars_substring0, chars_replace_non_digit.
  - intros name value st Hname. eexists. split; [reflexivity|].
    destruct Hname as [-> | [-> | ->]];
      cbn [Profesores.newValue String.eqb Ascii.eqb Bool.eqb orb];
      apply chars_replace_non_letter_space.
Qed.

Lemma profesores_phone_and_names_witness :
  ∃ v, Profesores.handleChange "apellido" "O'Neil 3rd" Profesores.initial
       = setForm (<["apellido" := JStr v]> Profesores.emptyForm) Profesores.initial
       ∧ list_ascii_of_string v
         = List.filter (fun a => is_letter a || is_space a)
                       (list_ascii_of_string "O'Neil 3rd").
Proof.
  apply (proj2 profesores_phone_and_names "apellido" "O'Neil 3rd" Profesores.initial).
  right. right. reflexivity.
Defined.

(** The name rules on a concrete input: the apostrophe and the digit go,
    the letters and the blank stay. *)
Lemma name_rules_on_a_sample :
  Profesores.newValue "apellido" "O'Neil 3rd" = "ONeil rd"
  ∧ Estudiantes.newValue "nombre" "Mar1a Jos3" = "Mara Jos"
  ∧ Profesores.newValue "telefono" "+54 (11) 4000-0000" = "541140000000".
Proof. repeat split. Qed.

(** X12. In the form of Estudiantes the DNI holds the first 8 digits
    typed, name and surname hold the first 50 of the letters and white
    space typed (stripped first, then cut), and a field of any other
    name but [email] holds the input as typed. *)
Theorem estudiantes_field_rules (value : string) (st : Estudiantes.St) :
  (∃ v, Estudiantes.handleChange "dni" value st
        = setForm (<["dni" := JStr v]> (form st)) st
        ∧ list_ascii_of_string v
          = take 8 (List.filter is_digit (list_ascii_of_string value)))
  ∧ (∀ name, name = "nombre" ∨ name = "apellido" →
       ∃ v, Estudiantes.handleChange name value st
            = setForm (<[name := JStr v]> (form st)) st
            ∧ list_ascii_of_string v
              = take 50 (List.filter (fun a => is_letter a || is_space a)
                                     (list_ascii_of_string value)))
  ∧ (∀ name, name ≠ "dni" → name ≠ "nombre" → name ≠ "apellido" →
             name ≠ "email" →
       Estudiantes.handleChange name value st
       = setForm (<[name := JStr value]> (form st)) st).
Proof.
  split; [|split].
  - eexists. split; [reflexivity|].
    cbn [Estudiantes.newValue String.eqb Ascii.eqb Bool.eqb orb].
    now rewrite chars_substring0, chars_replace_non_digit.
  - intros name Hname. eexists. split; [reflexivity|].
    destruct Hname as [-> | ->];
      cbn [Estudiantes.newValue String.eqb Ascii.eqb Bool.eqb orb];
      now rewrite chars_substring0, chars_replace_non_letter_space.
  - intros name H1 H2 H3 H4. unfold Estudiantes.handleChange, Estudiantes.newValue.
    apply String.eqb_neq in H1, H2, H3, H4. now rewrite H1, H2, H3, H4.
Qed.

Lemma estudiantes_field_rules_witness :
  ∃ v, Estudiantes.handleChange "nombre" "Mar1a Jos3" Estudiantes.initial
       = setForm (<["nombre" := JStr v]> Estudiantes.emptyForm) Estudiantes.initial
       ∧ list_ascii_of_string v
         = take 50 (List.filter (fun a => is_letter a || is_space a)
                                (list_ascii_of_string "Mar1a Jos3")).
Proof.
  apply (proj1 (proj2 (estudiantes_field_rules "Mar1a Jos3" Estudiantes.initial))
           "nombre").
  left. reflexivity.
Defined.

(** The pattern of the email rule needs two neighbouring characters
    outside the class of the local part to match at all. *)
Lemma mail_no_match (a : ascii) (r : string) :
  Regex.mail_local a
  || match r with
     | EmptyString => true
     | String b _ => Regex.mail_local b
     end = true →
  Regex.match_here Regex.re_mail (String a r) = None.
Proof.
  intros H. unfold Regex.re_mail. cbn [Regex.match_here Regex.lo Regex.cls Regex.hi
                                        Regex.plus Regex.one Regex.at_least].
  cbn [Regex.run]. destruct (Regex.mail_local a) eqn:Ha; cbn [negb].
  - reflexivity.
  - cbn [orb] in H. destruct r as [|b r'].
    + reflexivity.
    + cbn [Regex.run]. rewrite H. cbn [negb].
      cbn [Regex.try_down Nat.ltb Nat.leb Regex.drop Regex.run].
      assert (Regex.char "@" b = false) as ->.
      { unfold Regex.char. destruct (Ascii.eqb_spec b "@") as [->|_];
          [discriminate H | reflexivity]. }
      reflexivity.
Qed.

Lemma mail_rule_keeps (s : string) :
  Reading.no_foreign_pair s = true →
  Regex.replace_all_empty Regex.re_mail s = s.
Proof.
  unfold Regex.replace_all_empty.
  induction s as [|a r IH]; [reflexivity|].
  cbn [Reading.no_foreign_pair]. intros H. apply andb_true_iff in H as [Ha Hr].
  cbn [Regex.delete_from]. rewrite (mail_no_match a r Ha). now rewrite (IH Hr).
Qed.

(** X3. The email rule of Profesores and of Estudiantes does not strip
    single characters: a value in which no two neighbouring characters
    lie outside [[a-zA-Z0-9._%+-]] (every ordinary address) is held as
    typed, cut to 100 characters. *)
Theorem email_rule_keeps_ordinary_text (value : string) :
  Reading.no_foreign_pair value = true →
  Profesores.newValue "email" value = substring0 100 value
  ∧ Estudiantes.newValue "email" value = substring0 100 value.
Proof.
  intros H. cbn [Profesores.newValue Estudiantes.newValue
                 String.eqb Ascii.eqb Bool.eqb orb].
  now rewrite (mail_rule_keeps _ H).
Qed.

Lemma email_rule_keeps_ordinary_text_witness :
  Reading.no_foreign_pair "ana!paz@uni.edu" = true
  ∧ Profesores.newValue "email" "ana!paz@uni.edu" = substring0 100 "ana!paz@uni.edu"
  ∧ Estudiantes.newValue "email" "ana!paz@uni.edu" = substring0 100 "ana!paz@uni.edu".
Proof.
  split; [reflexivity|].
  apply (email_rule_keeps_ordinary_text "ana!paz@uni.edu"). reflexivity.
Defined.

(** X18. Whatever string is typed into the grade box of the enrollment
    form or into the grade search box, what is held afterwards is the
    empty string or an integer from 1 to 10. *)
Theorem grade_boxes_hold_empty_or_1_to_10 (value : string) (st : Inscripciones.St) :
  let held v := v = JStr "" ∨ ∃ n, v = JNum n ∧ 1 ≤ n ≤ 10 in
  (∃ st', Inscripciones.handleChange "nota" (JStr value) st = Some st'
          ∧ ∃ v, form st' !! "nota" = Some v ∧ held v)
  ∧ held (Inscripciones.s_nota
            (search (Inscripciones.handleSearchChange "nota" value st))).
Proof.
  cbn zeta. split.
  - eexists. split; [reflexivity|]. cbn [form setForm].
    exists (Inscripciones.normalizeNota value).
    split; [apply lookup_insert_eq | apply normalizeNota_range].
  - apply normalizeNota_range.
Qed.

End FieldRules.

(** ** Sessions of Profesores *)

Section Sessions.
Import JS Component Profesores.

Lemma run_app (evs1 evs2 : list event) (st : St) :
  run (evs1 ++ evs2) st
  = match run evs1 st with
    | Some st' => run evs2 st'
    | None => None
    end.
Proof.
  revert st. induction evs1 as [|ev evs1 IH]; intros st; [reflexivity|].
  cbn [run app]. destruct (step ev st); [apply IH | reflexivity].
Qed.

(** Typing changes neither the editing flag, nor the key [id] of the
    payload, nor the log. *)
Lemma typing_frame (evs : list event) (st : St) :
  forallb Trace.typing evs = true →
  ∃ st', run evs st = Some st'
         ∧ editing st' = editing st
         ∧ form st' !! "id" = form st !! "id"
         ∧ calls st' = calls st.
Proof.
  revert st. induction evs as [|ev evs IH]; intros st H.
  - exists st. auto.
  - cbn [forallb] in H. apply andb_true_iff in H as [Hev Hevs].
    destruct ev as [name value| | | | | |]; try discriminate Hev.
    cbn [Trace.typing] in Hev. apply negb_true_iff, String.eqb_neq in Hev.
    destruct (IH (handleChange name value st) Hevs) as (st' & Hrun & He & Hf & Hc).
    exists st'. cbn [run step]. split; [exact Hrun|].
    split; [exact He|]. split; [|exact Hc].
    rewrite Hf. unfold handleChange. cbn [form setForm].
    now apply lookup_insert_ne.
Qed.

Lemma handleSubmit_log (saved : Api.outcome unit)
    (listed : Api.outcome (list Profesor)) (st : St) :
  ∃ rest,
    calls (handleSubmit saved listed st)
    = (calls st
       ++ (if truthy (editing st)
           then Api.Put ("/profesores/" ++ display (editing st)) (form st)
           else Api.Post "/profesores" (form st)) :: rest)%list.
Proof.
  unfold handleSubmit. destruct saved as [[]|e].
  - cbn [calls setError setEditing setForm]. rewrite calls_loadProfesores.
    cbn [calls request]. rewrite <- app_assoc. eexists. reflexivity.
  - cbn [calls setError request]. eexists. reflexivity.
Qed.

Lemma truthy_id (i : Z) : i ≠ 0 → truthy (JNum i) = true.
Proof. intros H. cbn [truthy]. now destruct (Z.eqb_spec i 0). Qed.

(** X4. When a teacher is put under edit and the fields of the form are
    then typed into, in any number and order, the submit sends an update
    to the URL of that teacher, and the payload still carries the id of
    that teacher. *)
Theorem update_goes_to_the_edited_teacher
    (p : Profesor) (evs : list event) (saved : Api.outcome unit)
    (listed : Api.outcome (list Profesor)) (st : St) :
  id p ≠ 0 →
  forallb Trace.typing evs = true →
  ∃ st' body rest,
    run (Editar p :: evs ++ [Submit saved listed]) st = Some st'
    ∧ calls st'
      = (calls st ++ Api.Put ("/profesores/" ++ toString (id p)) body :: rest)%list
    ∧ body !! "id" = Some (JNum (id p)).
Proof.
  intros Hid Hevs.
  destruct (typing_frame evs (handleEdit p st) Hevs) as (st1 & Hrun & He & Hf & Hc).
  destruct (handleSubmit_log saved listed st1) as [rest Hlog].
  exists (handleSubmit saved listed st1), (form st1), rest.
  split; [|split].
  - cbn [run step]. rewrite run_app, Hrun. reflexivity.
  - rewrite Hlog, He, Hc. cbn [handleEdit editing setForm setEditing calls].
    now rewrite (truthy_id _ Hid).
  - rewrite Hf. unfold handleEdit, to_object. cbn [form setForm].
    apply lookup_insert_eq.
Qed.

Lemma update_goes_to_the_edited_teacher_witness :
  id Sample.ana ≠ 0
  ∧ forallb Trace.typing [Change "nombre" "Anna"; Change "telefono" "555"] = true
  ∧ ∃ st' body rest,
      run (Editar Sample.ana
             :: [Change "nombre" "Anna"; Change "telefono" "555"]
             ++ [Submit (Api.Resolved tt) (Api.Resolved [])]) initial = Some st'
      ∧ calls st'
        = (calls initial
           ++ Api.Put ("/profesores/" ++ toString (id Sample.ana)) body :: rest)%list
      ∧ body !! "id" = Some (JNum (id Sample.ana)).
Proof.
  split; [discriminate|]. split; [reflexivity|].
  apply (update_goes_to_the_edited_teacher Sample.ana
           [Change "nombre" "Anna"; Change "telefono" "555"]
           (Api.Resolved tt) (Api.Resolved []) initial);
    [discriminate | reflexivity].
Defined.

(** X5. After "Editar" and "Cancelar", the next submit is a create: it
    posts to the collection the payload loaded from the teacher whose
    edit was cancelled, id included. *)
Theorem submit_after_cancel_posts_loaded_teacher
    (p : Profesor) (saved : Api.outcome unit)
    (listed : Api.outcome (list Profesor)) (st : St) :
  id p ≠ 0 →
  ∃ st' rest,
    run [Editar p; Cancelar; Submit saved listed] st = Some st'
    ∧ calls st' = (calls st ++ Api.Post "/profesores" (to_object p) :: rest)%list
    ∧ to_object p !! "id" = Some (JNum (id p)).
Proof.
  intros Hid.
  destruct (handleSubmit_log saved listed (setEditing JNull (handleEdit p st)))
    as [rest Hlog].
  exists (handleSubmit saved listed (setEditing JNull (handleEdit p st))), rest.
  split; [|split].
  - cbn [run step handleEdit editing setForm setEditing].
    now rewrite (truthy_id _ Hid).
  - exact Hlog.
  - apply lookup_insert_eq.
Qed.

Lemma submit_after_cancel_posts_loaded_teacher_witness :
  id Sample.ana ≠ 0
  ∧ ∃ st' rest,
      run [Editar Sample.ana; Cancelar;
           Submit (Api.Resolved tt) (Api.Resolved [Sample.ana])] initial = Some st'
      ∧ calls st'
        = (calls initial ++ Api.Post "/profesores" (to_object Sample.ana) :: rest)%list
      ∧ to_object Sample.ana !! "id" = Some (JNum (id Sample.ana)).
Proof.
  split; [discriminate|].
  apply (submit_after_cancel_posts_loaded_teacher Sample.ana
           (Api.Resolved tt) (Api.Resolved [Sample.ana]) initial).
  discriminate.
Defined.

(** X6. The editing flag is tested for truthiness, so the id 0 counts as
    "not editing": after "Editar" on a teacher the cancel button is
    missing exactly when the id is 0, and the submit is an update to the
    URL of the teacher exactly when the id is not 0; with the id 0 it
    posts a create. *)
Theorem edit_mode_needs_nonzero_id
    (p : Profesor) (saved : Api.outcome unit)
    (listed : Api.outcome (list Profesor)) (st : St) :
  (step Cancelar (handleEdit p st) = None ↔ id p = 0)
  ∧ ∃ rest,
      calls (handleSubmit saved listed (handleEdit p st))
      = (calls st
         ++ (if id p =? 0
             then Api.Post "/profesores" (to_object p)
             else Api.Put ("/profesores/" ++ toString (id p)) (to_object p))
         :: rest)%list.
Proof.
  split.
  - cbn [step handleEdit editing setForm setEditing truthy].
    destruct (Z.eqb_spec (id p) 0) as [E|E]; cbn [negb]; split;
      try discriminate; try contradiction; auto.
  - destruct (handleSubmit_log saved listed (handleEdit p st)) as [rest Hlog].
    exists rest. rewrite Hlog.
    cbn [handleEdit editing setForm setEditing truthy form calls display].
    now destruct (id p =? 0).
Qed.

Lemma delete_urls_app (a b : list Api.call) :
  Trace.delete_urls (a ++ b)
  = (Trace.delete_urls a ++ Trace.delete_urls b)%list.
Proof.
  induction a as [|c a IH]; [reflexivity|].
  destruct c; cbn [Trace.delete_urls app]; now rewrite IH.
Qed.

Lemma delete_urls_handleSubmit (saved : Api.outcome unit)
    (listed : Api.outcome (list Profesor)) (st : St) :
  Trace.delete_urls (calls (handleSubmit saved listed st))
  = Trace.delete_urls (calls st).
Proof.
  destruct (handleSubmit_log saved listed st) as [rest Hlog].
  unfold handleSubmit in *. destruct saved as [[]|e].
  - cbn [calls setError setEditing setForm]. rewrite calls_loadProfesores.
    cbn [calls request]. rewrite !delete_urls_app.
    destruct (truthy (editing st)); cbn [Trace.delete_urls]; now rewrite !app_nil_r.
  - cbn [calls setError request]. rewrite delete_urls_app.
    destruct (truthy (editing st)); cbn [Trace.delete_urls]; now rewrite app_nil_r.
Qed.

Lemma delete_urls_eliminarProfesor (deleted : Api.outcome unit)
    (listed : Api.outcome (list Profesor)) (st : St) :
  Trace.delete_urls (calls (eliminarProfesor deleted listed st))
  = (Trace.delete_urls (calls st)
     ++ [("/profesores/" ++ display (idEliminar st))%string])%list.
Proof.
  unfold eliminarProfesor. destruct deleted as [[]|e].
  - cbn [calls setError setOpen]. rewrite calls_loadProfesores.
    cbn [calls request]. rewrite !delete_urls_app. cbn [Trace.delete_urls].
    now rewrite app_nil_r.
  - cbn [calls setError setOpen request]. now rewrite delete_urls_app.
Qed.

Lemma open_eliminarProfesor (deleted : Api.outcome unit)
    (listed : Api.outcome (list Profesor)) (st : St) :
  open (eliminarProfesor deleted listed st) = false.
Proof. unfold eliminarProfesor. destruct deleted as [[]|e]; reflexivity. Qed.

(** One gesture keeps the account of deletes. *)
Lemma step_accounted (ev : event) (clicked : list Z) (st st' : St) :
  Trace.accounted clicked st →
  step ev st = Some st' →
  Trace.accounted (clicked ++ Trace.eliminar_clicks [ev]) st'.
Proof.
  intros (Hopen & Hurls) Hstep.
  destruct ev as [name value|saved listed|p| |i| |deleted listed];
    cbn [step] in Hstep; cbn [Trace.eliminar_clicks]; rewrite ?app_nil_r.
  - injection Hstep as <-. exact (conj Hopen Hurls).
  - injection Hstep as <-. unfold Trace.accounted.
    rewrite delete_urls_handleSubmit.
    replace (open (handleSubmit saved listed st)) with (open st)
      by (unfold handleSubmit; destruct saved as [[]|]; [destruct listed|]; reflexivity).
    replace (idEliminar (handleSubmit saved listed st)) with (idEliminar st)
      by (unfold handleSubmit; destruct saved as [[]|]; [destruct listed|]; reflexivity).
    exact (conj Hopen Hurls).
  - injection Hstep as <-. exact (conj Hopen Hurls).
  - destruct (truthy (editing st)); [|discriminate].
    injection Hstep as <-. exact (conj Hopen Hurls).
  - injection Hstep as <-. unfold Trace.accounted.
    cbn [handleDelete open idEliminar calls setOpen setIdEliminar].
    split.
    + intros _. exists i. split; [apply in_or_app; right; now left | reflexivity].
    + intros url Hurl. destruct (Hurls url Hurl) as (j & Hj & ->).
      exists j. split; [apply in_or_app; now left | reflexivity].
  - destruct (open st) eqn:Ho; [|discriminate].
    injection Hstep as <-. unfold Trace.accounted.
    cbn [open idEliminar calls setOpen]. split; [discriminate | exact Hurls].
  - destruct (open st) eqn:Ho; [|discriminate].
    injection Hstep as <-. unfold Trace.accounted.
    rewrite delete_urls_eliminarProfesor, open_eliminarProfesor.
    split; [discriminate|].
    intros url Hurl. apply in_app_or in Hurl as [Hurl | [<- | []]].
    + exact (Hurls url Hurl).
    + destruct (Hopen eq_refl) as (j & Hj & ->). exists j. split; [exact Hj | reflexivity].
Qed.

Lemma run_accounted (evs : list event) (clicked : list Z) (st st' : St) :
  Trace.accounted clicked st →
  run evs st = Some st' →
  Trace.accounted (clicked ++ Trace.eliminar_clicks evs) st'.
Proof.
  revert clicked st. induction evs as [|ev evs IH]; intros clicked st Hacc Hrun.
  - injection Hrun as <-. cbn [Trace.eliminar_clicks]. now rewrite app_nil_r.
  - cbn [run] in Hrun. destruct (step ev st) as [st1|] eqn:Hstep; [|discriminate].
    pose proof (step_accounted ev clicked st st1 Hacc Hstep) as Hacc1.
    specialize (IH _ _ Hacc1 Hrun).
    replace (clicked ++ Trace.eliminar_clicks (ev :: evs))%list
      with ((clicked ++ Trace.eliminar_clicks [ev]) ++ Trace.eliminar_clicks evs)%list;
      [exact IH|].
    rewrite <- app_assoc. f_equal.
    destruct ev; reflexivity.
Qed.

Lemma initial_accounted : Trace.accounted [] initial.
Proof.
  split; [discriminate | intros url []].
Qed.

(** X7. In every session that starts at the initial state, each delete
    request names an id on which "Eliminar" was clicked in that
    session. *)
Theorem deletes_only_clicked_ids (evs : list event) (st : St) :
  run evs initial = Some st →
  ∀ url, In url (Trace.delete_urls (calls st)) →
    ∃ i, In i (Trace.eliminar_clicks evs) ∧ url = "/profesores/" ++ toString i.
Proof.
  intros Hrun. exact (proj2 (run_accounted evs [] initial st
                                initial_accounted Hrun)).
Qed.

Lemma deletes_only_clicked_ids_witness :
  run [Eliminar 7; DialogCancelar; Eliminar 9;
       DialogEliminar (Api.Resolved tt) (Api.Resolved [])] initial
  = Some (eliminarProfesor (Api.Resolved tt) (Api.Resolved [])
            (handleDelete 9 (setOpen false (handleDelete 7 initial))))
  ∧ ∀ url,
      In url (Trace.delete_urls
                (calls (eliminarProfesor (Api.Resolved tt) (Api.Resolved [])
                          (handleDelete 9 (setOpen false (handleDelete 7 initial)))))) →
      ∃ i, In i (Trace.eliminar_clicks
                   [Eliminar 7; DialogCancelar; Eliminar 9;
                    DialogEliminar (Api.Resolved tt) (Api.Resolved [])])
           ∧ url = "/profesores/" ++ toString i.
Proof.
  split; [reflexivity|].
  apply (deletes_only_clicked_ids
           [Eliminar 7; DialogCancelar; Eliminar 9;
            DialogEliminar (Api.Resolved tt) (Api.Resolved [])]).
  reflexivity.
Defined.

(** X9. When the delete request of Profesores fails, the notice is the
    prefix followed by [error.response?.data] as text: the alternative
    "Error desconocido" is never shown ([+] binds tighter than [||] and
    the concatenation is never empty), and a failure without response
    body reads "...: undefined". *)
Theorem delete_failure_notice_of_profesores
    (e : Api.error) (listed : Api.outcome (list Profesor)) (st : St) :
  let st' := eliminarProfesor (Api.Rejected e) listed st in
  error st'
  = JStr ("No se pudo eliminar el profesor: " ++ display (Api.response_data e))
  ∧ error st' ≠ JStr "Error desconocido"
  ∧ (Api.response_data e = JUndefined →
     error st' = JStr "No se pudo eliminar el profesor: undefined").
Proof.
  cbn zeta. unfold eliminarProfesor. cbn [error setOpen setError].
  assert (or (JStr ("No se pudo eliminar el profesor: "
                      ++ display (Api.response_data e)))
             (JStr "Error desconocido")
          = JStr ("No se pudo eliminar el profesor: "
                    ++ display (Api.response_data e))) as -> by reflexivity.
  split; [reflexivity|]. split; [discriminate|].
  now intros ->.
Qed.

End Sessions.

(** ** Reloads, payloads and dates across the sections *)

Section AcrossSections.
Import JS Component.

(** X13. In Estudiantes a confirmed delete issues exactly one delete
    request, for the captured id, and closes the dialog whether the
    request succeeded or failed; when both the delete and the reload
    succeed the notice is cleared and the list cache is the reloaded
    list. *)
Theorem estudiantes_confirm_deletes_once
    (deleted : Api.outcome unit)
    (listed : Api.outcome (list Inscripciones.Estudiante)) (st : Estudiantes.St) :
  let st' := Estudiantes.eliminarEstudiante deleted listed st in
  open st' = false
  ∧ List.filter Api.is_delete (calls st')
    = (List.filter Api.is_delete (calls st)
       ++ [Api.Delete ("/estudiantes/" ++ display (idEliminar st))])%list
  ∧ ∀ data, deleted = Api.Resolved tt → listed = Api.Resolved data →
      error st' = JNull ∧ items st' = data.
Proof.
  cbn zeta. unfold Estudiantes.eliminarEstudiante.
  destruct deleted as [[]|e]; [destruct listed as [data|e]|];
    cbn [Estudiantes.settleEstudiantes open calls error items
         setItems setError setOpen request];
    rewrite ?List.filter_app; cbn [List.filter Api.is_delete];
    rewrite ?app_nil_r;
    (split; [reflexivity|]); (split; [reflexivity|]);
    intros data' Hd Hl; try discriminate Hd; try discriminate Hl.
  injection Hl as <-. split; reflexivity.
Qed.

Lemma estudiantes_confirm_deletes_once_witness :
  open (Estudiantes.eliminarEstudiante (Api.Resolved tt) (Api.Resolved [Sample.luis])
          (Estudiantes.handleDelete 5 Estudiantes.initial)) = false
  ∧ List.filter Api.is_delete
      (calls (Estudiantes.eliminarEstudiante (Api.Resolved tt)
                (Api.Resolved [Sample.luis])
                (Estudiantes.handleDelete 5 Estudiantes.initial)))
    = (List.filter Api.is_delete
         (calls (Estudiantes.handleDelete 5 Estudiantes.initial))
       ++ [Api.Delete
             ("/estudiantes/"
                ++ display (idEliminar (Estudiantes.handleDelete 5
                                          Estudiantes.initial)))])%list
  ∧ ∀ data,
      Api.Resolved tt = Api.Resolved tt →
      Api.Resolved [Sample.luis] = Api.Resolved data →
      error (Estudiantes.eliminarEstudiante (Api.Resolved tt)
               (Api.Resolved [Sample.luis])
               (Estudiantes.handleDelete 5 Estudiantes.initial)) = JNull
      ∧ items (Estudiantes.eliminarEstudiante (Api.Resolved tt)
                 (Api.Resolved [Sample.luis])
                 (Estudiantes.handleDelete 5 Estudiantes.initial)) = data.
Proof.
  apply (estudiantes_confirm_deletes_once (Api.Resolved tt)
           (Api.Resolved [Sample.luis])
           (Estudiantes.handleDelete 5 Estudiantes.initial)).
Defined.

(** X14. When a save succeeds and the reload that follows it fails, the
    form is cleared and the editing flag reset all the same, and the
    list cache keeps its old content.  Profesores shows no notice at
    all; Estudiantes, Cursos and Inscripciones end with the notice of
    the failed load, which arrives after the handler cleared the
    notice. *)
Theorem saved_but_reload_failed (e : Api.error) :
  (∀ st : Profesores.St,
     let st' := Profesores.handleSubmit (Api.Resolved tt) (Api.Rejected e) st in
     form st' = Profesores.emptyForm ∧ editing st' = JNull
     ∧ items st' = items st ∧ error st' = JNull)
  ∧ (∀ st : Estudiantes.St,
       let st' := Estudiantes.handleSubmit (Api.Resolved tt) (Api.Rejected e) st in
       form st' = Estudiantes.emptyForm ∧ editing st' = JNull
       ∧ items st' = items st
       ∧ error st'
         = JStr ("Error al cargar estudiantes. Verifica la conexi"
                   ++ String Inscripciones.o_acute "n."))
  ∧ (∀ st : Cursos.St,
       let st' := Cursos.handleSubmit (Api.Resolved tt) (Api.Rejected e) st in
       form st' = Cursos.emptyForm ∧ editing st' = JNull
       ∧ items st' = items st
       ∧ error st'
         = JStr "Error al cargar cursos. Verifica que los datos sean correctos.")
  ∧ (∀ st : Inscripciones.St,
       let st' := Inscripciones.handleSubmit (Api.Resolved tt) (Api.Rejected e) st in
       form st' = Inscripciones.emptyForm ∧ editing st' = JNull
       ∧ items st' = items st
       ∧ error st' = JStr ("Error al cargar inscripciones: " ++ Api.message e)).
Proof. repeat split. Qed.

(** X15. When a delete succeeds and the reload that follows it fails,
    the dialog is closed and the list cache keeps its old content, the
    deleted entity included.  In Cursos, Inscripciones and Estudiantes
    the notice of the failed load replaces the outcome of the delete;
    Profesores keeps its notice of success. *)
Theorem deleted_but_reload_failed (e : Api.error) :
  (∀ st : Cursos.St,
     let st' := Cursos.eliminarCurso (Api.Resolved tt) (Api.Rejected e) st in
     open st' = false ∧ items st' = items st
     ∧ error st'
       = JStr "Error al cargar cursos. Verifica que los datos sean correctos.")
  ∧ (∀ st : Inscripciones.St,
       let st' :=
         Inscripciones.eliminarInscripcion (Api.Resolved tt) (Api.Rejected e) st in
       open st' = false ∧ items st' = items st
       ∧ error st' = JStr ("Error al cargar inscripciones: " ++ Api.message e))
  ∧ (∀ st : Estudiantes.St,
       let st' :=
         Estudiantes.eliminarEstudiante (Api.Resolved tt) (Api.Rejected e) st in
       open st' = false ∧ items st' = items st
       ∧ error st'
         = JStr ("Error al cargar estudiantes. Verifica la conexi"
                   ++ String Inscripciones.o_acute "n."))
  ∧ (∀ st : Profesores.St,
       let st' := Profesores.eliminarProfesor (Api.Resolved tt) (Api.Rejected e) st in
       open st' = false ∧ items st' = items st
       ∧ error st'
         = JStr ("Profesor eliminado con " ++ String Profesores.e_acute "xito")).
Proof. repeat split. Qed.

(** The first piece of a split has no separator and is followed, in the
    string, by nothing or by a separator. *)
Lemma split_head (sep : ascii) (s : string) :
  ∃ d tl,
    split sep s = d :: tl
    ∧ includes d (String sep "") = false
    ∧ (s = d ∨ ∃ rest, s = d ++ String sep rest).
Proof.
  induction s as [|c r (d & tl & Hsplit & Hd & Hs)].
  - exists "", []. repeat split. now left.
  - cbn [split]. destruct (Ascii.eqb_spec c sep) as [->|Hc].
    + exists "", (split sep r). repeat split. right. now exists r.
    + rewrite Hsplit. exists (String c d), tl. split; [reflexivity|]. split.
      * cbn [includes startsWith]. rewrite Hd.
        apply Ascii.eqb_neq in Hc. now rewrite Hc.
      * destruct Hs as [-> | [rest ->]]; [now left | right; now exists rest].
Qed.

(** X19. For every enrollment, whatever its [fecha], the date the edit
    form holds is a string without 'T' that is either the whole [fecha]
    or the part of it before its first 'T'. *)
Theorem edit_form_date_is_prefix_before_T
    (inscripcion : Inscripciones.Inscripcion) (st : Inscripciones.St) :
  ∃ day,
    form (Inscripciones.handleEdit inscripcion st) !! "fecha" = Some (JStr day)
    ∧ includes day "T" = false
    ∧ (Inscripciones.fecha inscripcion = day
       ∨ ∃ rest, Inscripciones.fecha inscripcion = day ++ String "T" rest).
Proof.
  destruct (split_head "T" (Inscripciones.fecha inscripcion))
    as (d & tl & Hsplit & Hd & Hs).
  exists d. split; [|split; assumption].
  unfold Inscripciones.handleEdit, Inscripciones.fechaForm. cbn [form setForm].
  now rewrite Hsplit.
Qed.

(** X17. Editing an enrollment and submitting sends an update to the URL
    of that enrollment whose payload has the flat keys only: the id of
    the course, the id of the student, the grade as read and the date
    part of [fecha]. *)
Theorem enrollment_update_sends_flat_keys
    (inscripcion : Inscripciones.Inscripcion) (day rest : string)
    (saved : Api.outcome unit)
    (listed : Api.outcome (list Inscripciones.Inscripcion))
    (st : Inscripciones.St) :
  Inscripciones.id inscripcion ≠ 0 →
  Inscripciones.fecha inscripcion = day ++ String "T" rest →
  includes day "T" = false →
  ∃ tail,
    calls (Inscripciones.handleSubmit saved listed
             (Inscripciones.handleEdit inscripcion st))
    = (calls st
       ++ Api.Put
            ("/cursos-estudiantes/" ++ toString (Inscripciones.id inscripcion))
            (<["cursoId" := JNum (Cursos.id (Inscripciones.curso inscripcion))]>
            (<["estudianteId" :=
                 JNum (Inscripciones.e_id (Inscripciones.estudiante inscripcion))]>
            (<["nota" := Inscripciones.nota inscripcion]>
            (<["fecha" := JStr day]> ∅))))
       :: tail)%list.
Proof.
  intros Hid Hfecha Hday.
  unfold Inscripciones.handleSubmit, Inscripciones.handleEdit, Inscripciones.fechaForm.
  rewrite Hfecha, (split_before_first _ _ _ Hday).
  cbn [editing form setForm setEditing first lookup list_lookup].
  rewrite (truthy_id _ Hid).
  destruct saved as [[]|e]; [destruct listed|];
    cbn [Inscripciones.settleInscripciones calls setItems setError setEditing
         setForm request display];
    rewrite <- ?app_assoc; eexists; reflexivity.
Qed.

Lemma enrollment_update_sends_flat_keys_witness :
  Inscripciones.id Sample.enrollment ≠ 0
  ∧ Inscripciones.fecha Sample.enrollment = "2024-03-01" ++ String "T" "00:00:00Z"
  ∧ includes "2024-03-01" "T" = false
  ∧ ∃ tail,
      calls (Inscripciones.handleSubmit (Api.Resolved tt) (Api.Resolved [])
               (Inscripciones.handleEdit Sample.enrollment Inscripciones.initial))
      = (calls Inscripciones.initial
         ++ Api.Put
              ("/cursos-estudiantes/"
                 ++ toString (Inscripciones.id Sample.enrollment))
              (<["cursoId" :=
                   JNum (Cursos.id (Inscripciones.curso Sample.enrollment))]>
              (<["estudianteId" :=
                   JNum (Inscripciones.e_id
                           (Inscripciones.estudiante Sample.enrollment))]>
              (<["nota" := Inscripciones.nota Sample.enrollment]>
              (<["fecha" := JStr "2024-03-01"]> ∅))))
         :: tail)%list.
Proof.
  split; [discriminate|]. split; [reflexivity|]. split; [reflexivity|].
  apply (enrollment_update_sends_flat_keys Sample.enrollment
           "2024-03-01" "00:00:00Z" (Api.Resolved tt) (Api.Resolved [])
           Inscripciones.initial); [discriminate | reflexivity | reflexivity].
Defined.

Lemma cursos_handleSubmit_log (saved : Api.outcome unit)
    (listed : Api.outcome (list Cursos.Curso)) (st : Cursos.St) :
  ∃ rest,
    calls (Cursos.handleSubmit saved listed st)
    = (calls st
       ++ (if truthy (editing st)
           then Api.Put ("/cursos/" ++ display (editing st)) (form st)
           else Api.Post "/cursos" (form st)) :: rest)%list.
Proof.
  unfold Cursos.handleSubmit.
  destruct saved as [[]|e]; [destruct listed|];
    cbn [Cursos.settleCursos calls setItems setError setEditing setForm request];
    rewrite <- ?app_assoc; eexists; reflexivity.
Qed.

(** X20. Editing a course and submitting sends an update to the URL of
    that course whose payload has the three keys of the form and no id;
    [profesorId] is the id of the teacher of the course, or the empty
    string for a course without teacher. *)
Theorem course_update_payload
    (curso : Cursos.Curso) (saved : Api.outcome unit)
    (listed : Api.outcome (list Cursos.Curso)) (st : Cursos.St) :
  Cursos.id curso ≠ 0 →
  ∃ body tail,
    calls (Cursos.handleSubmit saved listed (Cursos.handleEdit curso st))
    = (calls st ++ Api.Put ("/cursos/" ++ toString (Cursos.id curso)) body
                :: tail)%list
    ∧ dom body = ({["nombre"; "descripcion"; "profesorId"]} : gset string)
    ∧ body !! "nombre" = Some (JStr (Cursos.nombre curso))
    ∧ body !! "descripcion" = Some (JStr (Cursos.descripcion curso))
    ∧ body !! "profesorId"
      = Some match Cursos.profesor curso with
             | Some p => JNum (Profesores.id p)
             | None => JStr ""
             end.
Proof.
  intros Hid.
  destruct (cursos_handleSubmit_log saved listed (Cursos.handleEdit curso st))
    as [tail Htail].
  exists (form (Cursos.handleEdit curso st)), tail. split.
  - rewrite Htail. cbn [Cursos.handleEdit editing form calls setForm setEditing].
    now rewrite (truthy_id _ Hid).
  - unfold Cursos.handleEdit. cbn [form setForm].
    split; [|split; [|split]].
    + rewrite !dom_insert_L, dom_empty_L. set_solver.
    + apply lookup_insert_eq.
    + rewrite lookup_insert_ne by discriminate. apply lookup_insert_eq.
    + rewrite !lookup_insert_ne by discriminate. apply lookup_insert_eq.
Qed.

Lemma course_update_payload_witness :
  Cursos.id (Cursos.MkCurso 3 "Logica" "Conjuntos" None) ≠ 0
  ∧ ∃ body tail,
      calls (Cursos.handleSubmit (Api.Resolved tt) (Api.Resolved [])
               (Cursos.handleEdit (Cursos.MkCurso 3 "Logica" "Conjuntos" None)
                                  Cursos.initial))
      = (calls Cursos.initial
         ++ Api.Put ("/cursos/"
                       ++ toString (Cursos.id (Cursos.MkCurso 3 "Logica" "Conjuntos" None)))
                    body
         :: tail)%list
      ∧ dom body = ({["nombre"; "descripcion"; "profesorId"]} : gset string)
      ∧ body !! "nombre"
        = Some (JStr (Cursos.nombre (Cursos.MkCurso 3 "Logica" "Conjuntos" None)))
      ∧ body !! "descripcion"
        = Some (JStr (Cursos.descripcion (Cursos.MkCurso 3 "Logica" "Conjuntos" None)))
      ∧ body !! "profesorId"
        = Some match Cursos.profesor (Cursos.MkCurso 3 "Logica" "Conjuntos" None) with
               | Some p => JNum (Profesores.id p)
               | None => JStr ""
               end.
Proof.
  split; [discriminate|].
  apply (course_update_payload (Cursos.MkCurso 3 "Logica" "Conjuntos" None)
           (Api.Resolved tt) (Api.Resolved []) Cursos.initial).
  discriminate.
Defined.

End AcrossSections.

(** ** Search boxes *)

Section SearchBoxes.
Import JS Component.

Lemma filter_everything {A} (f : A → bool) (l : list A) :
  (∀ x, f x = true) → List.filter f l = l.
Proof.
  intros H. induction l as [|a l IH]; [reflexivity|].
  cbn [List.filter]. now rewrite H, IH.
Qed.

Lemma filter_throwing_everything {A} (f : A → option bool) (l : list A) :
  (∀ x, f x = Some true) → Inscripciones.filter_throwing f l = Some l.
Proof.
  intros H. induction l as [|a l IH]; [reflexivity|].
  cbn [Inscripciones.filter_throwing]. now rewrite H, IH.
Qed.

(** X10. With every search box empty each table shows its whole list
    cache; the filter of Inscripciones then converts no grade, so it
    cannot fail. *)
Theorem empty_search_shows_everything :
  (∀ profesores : list Profesores.Profesor,
     Profesores.filteredProfesores Profesores.emptySearch profesores = profesores)
  ∧ (∀ cursos : list Cursos.Curso,
       Cursos.filteredCursos Cursos.emptySearch cursos = cursos)
  ∧ (∀ inscripciones : list Inscripciones.Inscripcion,
       Inscripciones.filteredInscripciones Inscripciones.emptySearch inscripciones
       = Some inscripciones).
Proof.
  split; [|split].
  - intros l. apply filter_everything. intros p. unfold Profesores.matches.
    cbn [Profesores.emptySearch Profesores.s_dni Profesores.s_nombre
         Profesores.s_apellido Profesores.s_email Profesores.s_profesion
         Profesores.s_telefono toLowerCase].
    now rewrite !includes_empty.
  - intros l. apply filter_everything. intros c. unfold Cursos.matches.
    cbn [Cursos.emptySearch Cursos.s_nombre Cursos.s_descripcion
         Cursos.s_profesorId toLowerCase].
    now rewrite !includes_empty.
  - intros l. apply filter_throwing_everything. intros i. reflexivity.
Qed.

Lemma append_assoc (a b c : string) : (a ++ b) ++ c = a ++ (b ++ c).
Proof.
  induction a as [|x a IH]; [reflexivity|].
  change (String x ((a ++ b) ++ c) = String x (a ++ (b ++ c))).
  now rewrite IH.
Qed.

Lemma includes_trans (a b c : string) :
  includes a b = true → includes b c = true → includes a c = true.
Proof.
  rewrite !includes_spec. intros (p1 & q1 & ->) (p2 & q2 & ->).
  exists (p1 ++ p2), (q2 ++ q1).
  now rewrite !append_assoc.
Qed.

Lemma narrower_matches_less (narrow wide : Profesores.Search)
    (p : Profesores.Profesor) :
  Reading.narrows narrow wide = true →
  Profesores.matches narrow p = true → Profesores.matches wide p = true.
Proof.
  unfold Reading.narrows, Profesores.matches. rewrite !andb_true_iff.
  intros [[[[[N1 N2] N3] N4] N5] N6] [[[[[M1 M2] M3] M4] M5] M6].
  repeat split; eapply includes_trans; eassumption.
Qed.

Lemma filter_of_wider {A} (f g : A → bool) (l : list A) :
  (∀ x, f x = true → g x = true) →
  List.filter f (List.filter g l) = List.filter f l.
Proof.
  intros H. induction l as [|a l IH]; [reflexivity|].
  cbn [List.filter]. destruct (g a) eqn:Hg.
  - cbn [List.filter]. now rewrite IH.
  - destruct (f a) eqn:Hf; [|exact IH].
    rewrite (H a Hf) in Hg. discriminate.
Qed.

(** X11. Typing more into the search boxes of Profesores never adds a
    row: when each box contains, up to case, its earlier content, every
    teacher shown was shown before, and filtering the rows shown before
    gives the same rows as filtering the whole list cache. *)
Theorem narrowing_the_search_only_removes_rows
    (narrow wide : Profesores.Search) (profesores : list Profesores.Profesor) :
  Reading.narrows narrow wide = true →
  (∀ p, In p (Profesores.filteredProfesores narrow profesores) →
        In p (Profesores.filteredProfesores wide profesores))
  ∧ Profesores.filteredProfesores narrow
      (Profesores.filteredProfesores wide profesores)
    = Profesores.filteredProfesores narrow profesores.
Proof.
  intros Hn. unfold Profesores.filteredProfesores. split.
  - intros p Hp. apply List.filter_In in Hp as [Hin Hm].
    apply List.filter_In. split; [exact Hin|].
    exact (narrower_matches_less _ _ _ Hn Hm).
  - apply filter_of_wider. intros p. apply narrower_matches_less. exact Hn.
Qed.

Lemma narrowing_the_search_only_removes_rows_witness :
  Reading.narrows (Profesores.MkSearch "" "Ana" "" "" "" "")
                  (Profesores.MkSearch "" "an" "" "" "" "") = true
  ∧ (∀ p, In p (Profesores.filteredProfesores
                  (Profesores.MkSearch "" "Ana" "" "" "" "") [Sample.ana]) →
          In p (Profesores.filteredProfesores
                  (Profesores.MkSearch "" "an" "" "" "" "") [Sample.ana]))
  ∧ Profesores.filteredProfesores (Profesores.MkSearch "" "Ana" "" "" "" "")
      (Profesores.filteredProfesores (Profesores.MkSearch "" "an" "" "" "" "")
                                     [Sample.ana])
    = Profesores.filteredProfesores (Profesores.MkSearch "" "Ana" "" "" "" "")
                                    [Sample.ana].
Proof.
  split; [reflexivity|].
  apply (narrowing_the_search_only_removes_rows
           (Profesores.MkSearch "" "Ana" "" "" "" "")
           (Profesores.MkSearch "" "an" "" "" "" "") [Sample.ana]).
  reflexivity.
Defined.

Lemma filter_throwing_None {A} (f : A → option bool) (l : list A) :
  Inscripciones.filter_throwing f l = None ↔ ∃ x, In x l ∧ f x = None.
Proof.
  induction l as [|a l IH]; cbn [Inscripciones.filter_throwing].
  - split; [discriminate | intros (x & [] & _)].
  - destruct (f a) as [b|] eqn:Ha.
    + destruct (Inscripciones.filter_throwing f l) as [r|].
      * split; [discriminate|]. intros (x & [<- | Hx] & Hf); [congruence|].
        assert (∃ x, In x l ∧ f x = None) as H by eauto.
        apply IH in H. discriminate.
      * split; [|reflexivity]. intros _.
        destruct (proj1 IH eq_refl) as (x & Hx & Hf). exists x. split; [now right | exact Hf].
    + split; [|reflexivity]. intros _. exists a. split; [now left | exact Ha].
Qed.

(** X21. The filter of Inscripciones fails (a TypeError while the table
    is built) exactly when a grade is searched and some enrollment that
    passes the course and student boxes has [null] or [undefined] as its
    grade; enrollments rejected by those two boxes are never asked for
    their grade. *)
Theorem grade_search_fails_on_missing_grade
    (s : Inscripciones.Search) (inscripciones : list Inscripciones.Inscripcion) :
  let names_only :=
    Inscripciones.MkSearch (Inscripciones.s_curso s) (Inscripciones.s_estudiante s)
                           (JStr "") in
  Inscripciones.filteredInscripciones s inscripciones = None
  ↔ Inscripciones.s_nota s ≠ JStr ""
    ∧ ∃ i, In i inscripciones
           ∧ Inscripciones.matches names_only i = Some true
           ∧ (Inscripciones.nota i = JNull ∨ Inscripciones.nota i = JUndefined).
Proof.
  cbn zeta. unfold Inscripciones.filteredInscripciones.
  rewrite filter_throwing_None.
  assert (∀ i, Inscripciones.matches s i = None
               ↔ Inscripciones.s_nota s ≠ JStr ""
                 ∧ Inscripciones.matches
                     (Inscripciones.MkSearch (Inscripciones.s_curso s)
                        (Inscripciones.s_estudiante s) (JStr "")) i = Some true
                 ∧ (Inscripciones.nota i = JNull ∨ Inscripciones.nota i = JUndefined))
    as Hone.
  { intros i. unfold Inscripciones.matches.
    cbn [Inscripciones.s_curso Inscripciones.s_estudiante Inscripciones.s_nota].
    destruct (_ && _).
    - destruct (decide (Inscripciones.s_nota s = JStr "")) as [E|E].
      + split; [discriminate | intros [H _]; contradiction].
      + destruct (Inscripciones.nota i); cbn [Inscripciones.toString_method];
          (split; [try discriminate; intros _; repeat split; auto
                  | try reflexivity; intros (_ & _ & [H|H]); discriminate H]).
    - split; [discriminate | intros (_ & H & _); discriminate H]. }
  split.
  - intros (i & Hin & Hm). apply Hone in Hm as (Hs & Hn & Hg). eauto 6.
  - intros (Hs & i & Hin & Hn & Hg). exists i. split; [exact Hin|].
    apply Hone. auto.
Qed.

End SearchBoxes.

(** ** Reloads over a session of Profesores *)

Section SessionCounts.
Import JS Component Profesores.

Lemma reloads_app (a b : list Api.call) :
  Trace.reloads (a ++ b) = (Trace.reloads a + Trace.reloads b)%nat.
Proof. unfold Trace.reloads. now rewrite List.filter_app, length_app. Qed.

Lemma writes_app (a b : list Api.call) :
  Trace.writes (a ++ b) = (Trace.writes a + Trace.writes b)%nat.
Proof. unfold Trace.writes. now rewrite List.filter_app, length_app. Qed.

Lemma step_counts (ev : event) (st st' : St) :
  step ev st = Some st' →
  Trace.reloads (calls st') = (Trace.reloads (calls st) + Trace.successes [ev])%nat
  ∧ Trace.writes (calls st') = (Trace.writes (calls st) + Trace.mutations [ev])%nat.
Proof.
  destruct ev as [name value|saved listed|p| |i| |deleted listed];
    cbn [step Trace.successes Trace.mutations]; intros Hstep.
  - injection Hstep as <-. unfold Trace.reloads, Trace.writes; unfold Trace.reloads, Trace.writes; cbn; lia.
  - injection Hstep as <-. unfold handleSubmit.
    destruct saved as [[]|e].
    + cbn [calls setError setEditing setForm]. rewrite calls_loadProfesores.
      cbn [calls request]. rewrite !reloads_app, !writes_app.
      destruct (truthy (editing st)); unfold Trace.reloads, Trace.writes; cbn; lia.
    + cbn [calls setError request]. rewrite reloads_app, writes_app.
      destruct (truthy (editing st)); unfold Trace.reloads, Trace.writes; cbn; lia.
  - injection Hstep as <-. unfold Trace.reloads, Trace.writes; unfold Trace.reloads, Trace.writes; cbn; lia.
  - destruct (truthy (editing st)); [|discriminate]. injection Hstep as <-. unfold Trace.reloads, Trace.writes; unfold Trace.reloads, Trace.writes; cbn; lia.
  - injection Hstep as <-. unfold Trace.reloads, Trace.writes; unfold Trace.reloads, Trace.writes; cbn; lia.
  - destruct (open st); [|discriminate]. injection Hstep as <-. unfold Trace.reloads, Trace.writes; unfold Trace.reloads, Trace.writes; cbn; lia.
  - destruct (open st); [|discriminate]. injection Hstep as <-.
    unfold eliminarProfesor. destruct deleted as [[]|e].
    + cbn [calls setError setOpen]. rewrite calls_loadProfesores.
      cbn [calls request]. rewrite !reloads_app, !writes_app. unfold Trace.reloads, Trace.writes; unfold Trace.reloads, Trace.writes; cbn; lia.
    + cbn [calls setError setOpen request]. rewrite reloads_app, writes_app.
      unfold Trace.reloads, Trace.writes; unfold Trace.reloads, Trace.writes; cbn; lia.
Qed.

Lemma run_counts (evs : list event) (st st' : St) :
  run evs st = Some st' →
  Trace.reloads (calls st') = (Trace.reloads (calls st) + Trace.successes evs)%nat
  ∧ Trace.writes (calls st') = (Trace.writes (calls st) + Trace.mutations evs)%nat.
Proof.
  revert st. induction evs as [|ev evs IH]; intros st Hrun.
  - injection Hrun as <-. unfold Trace.reloads, Trace.writes; unfold Trace.reloads, Trace.writes; cbn; lia.
  - cbn [run] in Hrun. destruct (step ev st) as [st1|] eqn:Hstep; [|discriminate].
    destruct (step_counts ev st st1 Hstep) as [Hr Hw].
    destruct (IH st1 Hrun) as [Hr' Hw'].
    assert (Trace.successes (ev :: evs)
            = (Trace.successes [ev] + Trace.successes evs)%nat) as ->.
    { destruct ev as [| [|] | | | | | [|] ]; reflexivity. }
    assert (Trace.mutations (ev :: evs)
            = (Trace.mutations [ev] + Trace.mutations evs)%nat) as ->.
    { destruct ev; reflexivity. }
    lia.
Qed.

(** X22. In every session of Profesores that starts at the initial
    state, each submit and each confirmed delete sends one mutating
    request, and the list is reloaded once after each of them that
    succeeded and not at all after one that failed. *)
Theorem one_reload_per_successful_mutation (evs : list event) (st : St) :
  run evs initial = Some st →
  Trace.writes (calls st) = Trace.mutations evs
  ∧ Trace.reloads (calls st) = Trace.successes evs.
Proof.
  intros Hrun. destruct (run_counts evs initial st Hrun) as [Hr Hw].
  change (Trace.reloads (calls initial)) with O in Hr.
  change (Trace.writes (calls initial)) with O in Hw. lia.
Qed.

Lemma one_reload_per_successful_mutation_witness :
  run [Change "dni" "30111222"; Submit (Api.Rejected (Api.Error JUndefined "500"))
                                       (Api.Resolved []);
       Submit (Api.Resolved tt) (Api.Resolved [Sample.ana])] initial
  = Some (handleSubmit (Api.Resolved tt) (Api.Resolved [Sample.ana])
            (handleSubmit (Api.Rejected (Api.Error JUndefined "500")) (Api.Resolved [])
               (handleChange "dni" "30111222" initial)))
  ∧ Trace.writes
      (calls (handleSubmit (Api.Resolved tt) (Api.Resolved [Sample.ana])
                (handleSubmit (Api.Rejected (Api.Error JUndefined "500"))
                   (Api.Resolved []) (handleChange "dni" "30111222" initial))))
    = Trace.mutations
        [Change "dni" "30111222";
         Submit (Api.Rejected (Api.Error JUndefined "500")) (Api.Resolved []);
         Submit (Api.Resolved tt) (Api.Resolved [Sample.ana])]
  ∧ Trace.reloads
      (calls (handleSubmit (Api.Resolved tt) (Api.Resolved [Sample.ana])
                (handleSubmit (Api.Rejected (Api.Error JUndefined "500"))
                   (Api.Resolved []) (handleChange "dni" "30111222" initial))))
    = Trace.successes
        [Change "dni" "30111222";
         Submit (Api.Rejected (Api.Error JUndefined "500")) (Api.Resolved []);
         Submit (Api.Resolved tt) (Api.Resolved [Sample.ana])].
Proof.
  split; [reflexivity|].
  apply (one_reload_per_successful_mutation
           [Change "dni" "30111222";
            Submit (Api.Rejected (Api.Error JUndefined "500")) (Api.Resolved []);
            Submit (Api.Resolved tt) (Api.Resolved [Sample.ana])]).
  reflexivity.
Defined.

End SessionCounts.
